(** * DWD Weather Warnings sensor platform

    A shallow embedding of
    [homeassistant/components/dwd_weather_warnings/sensor.py].

    Python objects that the sensor reaches through references (the API client,
    the coordinator, the warning dictionaries) live in a heap indexed by
    locations, so that [warning.copy()] and the item assignments on the copy
    are modelled with their aliasing.  Code that can raise is written in a
    state-and-exception monad over that heap. *)

From Stdlib Require Import Ascii.
From stdpp Require Import gmap strings list fin_maps pretty.

(** ** Python values and objects *)

Definition loc := positive.

(** Immutable values are carried by value, dictionaries by reference. *)
Inductive val :=
  | VNone
  | VBool (b : bool)
  | VInt (n : Z)
  | VStr (s : string)
  | VDateTime (t : Z)
  | VRef (l : loc).

(** The attributes of [dwdwfsapi.DwdWeatherWarningsAPI] read by the sensor.
    The two warning lists hold references to warning dictionaries. *)
Record DwdWeatherWarningsAPI := {
  data_valid : bool;
  warncell_id : val;
  warncell_name : val;
  last_update : val;
  current_warning_level : val;
  current_warnings : list loc;
  expected_warning_level : val;
  expected_warnings : list loc;
}.

(** Of the coordinator the sensor uses the attribute [api] only. *)
Record DwdWeatherWarningsCoordinator := {
  coordinator_api : loc;
}.

Inductive obj :=
  | ODict (d : gmap string val)
  | OApi (a : DwdWeatherWarningsAPI)
  | OCoordinator (c : DwdWeatherWarningsCoordinator).

(** ** Framework types *)

Record SensorEntityDescription := {
  key : string;
  name : string;
  icon : string;
}.

Record ConfigEntry := {
  entry_id : string;
  title : string;
  unique_id : option string;
}.

Record DeviceInfo := {
  identifiers : list (string * string);
  device_name : string;
}.

Inductive IssueSeverity := CRITICAL | ERROR | WARNING.

Definition ConfigType := gmap string val.
Definition DiscoveryInfoType := gmap string val.

(** [hass.data[DOMAIN][entry_id]] is a reference to a coordinator. *)
Record HomeAssistant := {
  data : gmap string (gmap string loc);
}.

(** Calls into the framework are recorded in the order they are made.  The
    coroutine built by [hass.config_entries.flow.async_init] is not run by the
    platform: it is handed to [hass.async_create_task]. *)
Inductive coroutine :=
  | flow_async_init (handler : string) (context : gmap string string)
      (flow_data : ConfigType).

Inductive call :=
  | async_create_issue (domain issue_id : string)
      (breaks_in_ha_version : string) (is_fixable : bool)
      (issue_domain : string) (severity : IssueSeverity)
      (translation_key : string)
      (translation_placeholders : gmap string string)
  | async_create_task (target : coroutine).

(** ** The store and the monad of effects *)

Record store := {
  heap : gmap loc obj;
  calls : list call;
}.

(** The exceptions that can occur: a missing dictionary key, an attribute
    read on an object of another class, an item read on an object that is
    not a dictionary. *)
Inductive exn :=
  | KeyError (k : string)
  | AttributeError
  | TypeError.

Definition M (A : Type) : Type := store → (exn + A) * store.

#[export] Instance M_ret : MRet M := λ A a σ, (inr a, σ).

#[export] Instance M_bind : MBind M := λ A B k m σ,
  match m σ with
  | (inr a, σ') => k a σ'
  | (inl e, σ') => (inl e, σ')
  end.

Definition raise {A} (e : exn) : M A := λ σ, (inl e, σ).

(** Reading the attributes of the API object, and of the coordinator,
    behind a reference. *)
Definition get_api (l : loc) : M DwdWeatherWarningsAPI := λ σ,
  match heap σ !! l with
  | Some (OApi a) => (inr a, σ)
  | _ => (inl AttributeError, σ)
  end.

Definition get_coordinator (l : loc) : M DwdWeatherWarningsCoordinator := λ σ,
  match heap σ !! l with
  | Some (OCoordinator c) => (inr c, σ)
  | _ => (inl AttributeError, σ)
  end.

(** [d[k]] on a dictionary held by value. *)
Definition getitem {V} (d : gmap string V) (k : string) : M V :=
  match d !! k with
  | Some v => mret v
  | None => raise (KeyError k)
  end.

(** [d[k]] on a dictionary on the heap. *)
Definition dict_getitem (l : loc) (k : string) : M val := λ σ,
  match heap σ !! l with
  | Some (ODict d) => getitem d k σ
  | _ => (inl TypeError, σ)
  end.

(** [d[k] = v] on a dictionary on the heap. *)
Definition dict_setitem (l : loc) (k : string) (v : val) : M unit := λ σ,
  match heap σ !! l with
  | Some (ODict d) =>
      (inr (), {| heap := <[l := ODict (<[k := v]> d)]> (heap σ);
                  calls := calls σ |})
  | _ => (inl TypeError, σ)
  end.

(** [d.copy()]: a new dictionary with the same items. *)
Definition dict_copy (l : loc) : M loc := λ σ,
  match heap σ !! l with
  | Some (ODict d) =>
      let l' := fresh (dom (heap σ)) in
      (inr l', {| heap := <[l' := ODict d]> (heap σ); calls := calls σ |})
  | _ => (inl TypeError, σ)
  end.

Definition record_call (c : call) : M unit := λ σ,
  (inr (), {| heap := heap σ; calls := calls σ ++ [c] |}).

(** ** Constants *)

(** [const.py] is not among the sources.  The two sensor keys and the four
    fixed attribute names take the values that the specification gives
    them. *)

(** Modelled from the spec: the key of the current-warning sensor. *)
Definition CURRENT_WARNING_SENSOR : string := "current_warning_level".

(** Modelled from the spec: the key of the advance-warning sensor. *)
Definition ADVANCE_WARNING_SENSOR : string := "advance_warning_level".

(** Modelled from the spec: the attribute holding [api.warncell_name]. *)
Definition ATTR_REGION_NAME : string := "region_name".

(** Modelled from the spec: the attribute holding [api.warncell_id]. *)
Definition ATTR_REGION_ID : string := "region_id".

(** Modelled from the spec: the attribute holding [api.last_update]. *)
Definition ATTR_LAST_UPDATE : string := "last_update".

(** Modelled from the spec: the attribute holding the number of warnings. *)
Definition ATTR_WARNING_COUNT : string := "warning_count".

(** The remaining constants of [const.py] and of the framework are left
    abstract: nothing below depends on their values. *)
Class Constants := {
  API_ATTR_WARNING_NAME : string;
  API_ATTR_WARNING_TYPE : string;
  API_ATTR_WARNING_LEVEL : string;
  API_ATTR_WARNING_HEADLINE : string;
  API_ATTR_WARNING_DESCRIPTION : string;
  API_ATTR_WARNING_INSTRUCTION : string;
  API_ATTR_WARNING_START : string;
  API_ATTR_WARNING_END : string;
  API_ATTR_WARNING_PARAMETERS : string;
  API_ATTR_WARNING_COLOR : string;
  DEFAULT_NAME : string;
  DOMAIN : string;
  HOMEASSISTANT_DOMAIN : string;
  SOURCE_IMPORT : string;
}.

Definition SENSOR_TYPES : list SensorEntityDescription := [
  {| key := CURRENT_WARNING_SENSOR;
     name := "Current Warning Level";
     icon := "mdi:close-octagon-outline" |};
  {| key := ADVANCE_WARNING_SENSOR;
     name := "Advance Warning Level";
     icon := "mdi:close-octagon-outline" |}
].

(** ** The sensor entity *)

Record DwdWeatherWarningsSensor := {
  coordinator : loc;
  entity_description : SensorEntityDescription;
  _attr_name : string;
  _attr_unique_id : string;
  _attr_device_info : DeviceInfo;
  api : loc;
}.

Definition AddEntitiesCallback : Type :=
  list DwdWeatherWarningsSensor → bool → M unit.

(** [f"{x}"] for [x : str | None]. *)
Definition format_opt (x : option string) : string := default "None" x.

(** [f"warning_{i}<suffix>"]. *)
Definition warning_attr (i : nat) (suffix : string) : string :=
  "warning_" +:+ pretty i +:+ suffix.

Section sensor.
Context `{Constants}.

Definition async_setup_platform (hass : HomeAssistant) (config : ConfigType)
    (add_entities : AddEntitiesCallback)
    (discovery_info : option DiscoveryInfoType) : M unit :=
  record_call (async_create_issue
    HOMEASSISTANT_DOMAIN
    ("deprecated_yaml_" +:+ DOMAIN)
    "2023.12.0"
    false
    DOMAIN
    WARNING
    "deprecated_yaml"
    {[ "domain" := DOMAIN;
       "integration_title" :=
         "Deutscher Wetterdienst (DWD) Weather Warnings" ]});;
  record_call (async_create_task
    (flow_async_init DOMAIN {[ "source" := SOURCE_IMPORT ]} config)).

Definition DwdWeatherWarningsSensor_init (coordinator : loc)
    (entry : ConfigEntry) (description : SensorEntityDescription) :
    M DwdWeatherWarningsSensor :=
  c ← get_coordinator coordinator;
  mret {|
    coordinator := coordinator;
    entity_description := description;
    _attr_name :=
      DEFAULT_NAME +:+ " " +:+ title entry +:+ " " +:+ name description;
    _attr_unique_id :=
      format_opt (unique_id entry) +:+ "-" +:+ key description;
    _attr_device_info := {|
      identifiers := [(DOMAIN, entry_id entry)];
      device_name := DEFAULT_NAME +:+ " " +:+ title entry |};
    api := coordinator_api c |}.

Definition async_setup_entry (hass : HomeAssistant) (entry : ConfigEntry)
    (async_add_entities : AddEntitiesCallback) : M unit :=
  by_entry ← getitem (data hass) DOMAIN;
  coordinator ← getitem by_entry (entry_id entry);
  entities ← mapM
    (λ description, DwdWeatherWarningsSensor_init coordinator entry description)
    SENSOR_TYPES;
  async_add_entities entities true.

Definition native_value (self : DwdWeatherWarningsSensor) : M val :=
  a ← get_api (api self);
  if decide (key (entity_description self) = CURRENT_WARNING_SENSOR)
  then mret (current_warning_level a)
  else mret (expected_warning_level a).

(** One line [data[f"warning_{i}<suffix>"] = warning[attr]] of the loop. *)
Definition store_field (i : nat) (suffix : string) (warning : loc)
    (attr : string) (data : gmap string val) : M (gmap string val) :=
  v ← dict_getitem warning attr;
  mret (<[warning_attr i suffix := v]> data).

(** The body of the loop over the warnings. *)
Definition flatten_warning (i : nat) (warning : loc)
    (data : gmap string val) : M (gmap string val) :=
  data ← store_field i "_name" warning API_ATTR_WARNING_NAME data;
  data ← store_field i "_type" warning API_ATTR_WARNING_TYPE data;
  data ← store_field i "_level" warning API_ATTR_WARNING_LEVEL data;
  data ← store_field i "_headline" warning API_ATTR_WARNING_HEADLINE data;
  data ← store_field i "_description" warning
           API_ATTR_WARNING_DESCRIPTION data;
  data ← store_field i "_instruction" warning
           API_ATTR_WARNING_INSTRUCTION data;
  data ← store_field i "_start" warning API_ATTR_WARNING_START data;
  data ← store_field i "_end" warning API_ATTR_WARNING_END data;
  data ← store_field i "_parameters" warning
           API_ATTR_WARNING_PARAMETERS data;
  data ← store_field i "_color" warning API_ATTR_WARNING_COLOR data;
  warning_copy ← dict_copy warning;
  v ← getitem data (warning_attr i "_start");
  dict_setitem warning_copy API_ATTR_WARNING_START v;;
  v ← getitem data (warning_attr i "_end");
  dict_setitem warning_copy API_ATTR_WARNING_END v;;
  mret (<[warning_attr i "" := VRef warning_copy]> data).

(** [for i, warning in enumerate(searched_warnings, i): ...]. *)
Fixpoint flatten_warnings (i : nat) (searched_warnings : list loc)
    (data : gmap string val) : M (gmap string val) :=
  match searched_warnings with
  | [] => mret data
  | warning :: rest =>
      data ← flatten_warning i warning data;
      flatten_warnings (S i) rest data
  end.

Definition searched_warnings (self : DwdWeatherWarningsSensor)
    (a : DwdWeatherWarningsAPI) : list loc :=
  if decide (key (entity_description self) = CURRENT_WARNING_SENSOR)
  then current_warnings a
  else expected_warnings a.

Definition extra_state_attributes (self : DwdWeatherWarningsSensor) :
    M (gmap string val) :=
  a ← get_api (api self);
  let data : gmap string val :=
    <[ATTR_LAST_UPDATE := last_update a]>
      (<[ATTR_REGION_ID := warncell_id a]>
         (<[ATTR_REGION_NAME := warncell_name a]> ∅)) in
  let searched_warnings := searched_warnings self a in
  let data :=
    <[ATTR_WARNING_COUNT := VInt (Z.of_nat (length searched_warnings))]>
      data in
  flatten_warnings 1 searched_warnings data.

Definition available (self : DwdWeatherWarningsSensor) : M bool :=
  a ← get_api (api self);
  mret (data_valid a).

End sensor.

(** ** Vocabulary of the specification *)

(** The dictionary a reference points to, and the dictionaries a list of
    references points to (defined when all of them are dictionaries). *)
Definition lookup_dict (σ : store) (l : loc) : option (gmap string val) :=
  match heap σ !! l with
  | Some (ODict d) => Some d
  | _ => None
  end.

Definition warning_dicts (σ : store) (ls : list loc) :
    option (list (gmap string val)) :=
  mapM (lookup_dict σ) ls.

(** Every object of [σ] is in [σ'] unchanged, and no framework call was
    made in between. *)
Definition preserved (σ σ' : store) : Prop :=
  heap σ ⊆ heap σ' ∧ calls σ' = calls σ.

(** Decimal digits, and the suffixes that a decimal number can be followed by
    without ambiguity. *)
Definition is_digit (c : ascii) : bool :=
  match c with
  | "0" | "1" | "2" | "3" | "4" | "5" | "6" | "7" | "8" | "9" => true
  | _ => false
  end%char.

Fixpoint digits (s : string) : bool :=
  match s with
  | "" => true
  | String c s => is_digit c && digits s
  end.

Definition no_digit_head (s : string) : bool :=
  match s with
  | "" => true
  | String c _ => negb (is_digit c)
  end.

(** Equality of two values read in two stores: the same value, or two
    references to dictionaries with the same items. *)
Definition val_equiv (σ1 σ2 : store) (v1 v2 : val) : Prop :=
  v1 = v2 ∨
  ∃ l1 l2 d, v1 = VRef l1 ∧ v2 = VRef l2 ∧
    lookup_dict σ1 l1 = Some d ∧ lookup_dict σ2 l2 = Some d.

Definition data_equiv (σ1 σ2 : store) (d1 d2 : gmap string val) : Prop :=
  ∀ k, option_Forall2 (val_equiv σ1 σ2) (d1 !! k) (d2 !! k).

(** Two outcomes agree when they raise the same exception or return
    dictionaries that are equal in the sense above. *)
Definition outcome_equiv (r1 r2 : (exn + gmap string val) * store) : Prop :=
  match r1.1, r2.1 with
  | inl e1, inl e2 => e1 = e2
  | inr d1, inr d2 => data_equiv r1.2 r2.2 d1 d2
  | _, _ => False
  end.

(** The attribute [k] of the dictionary that an evaluation returned. *)
Definition returned_attribute (r : (exn + gmap string val) * store)
    (k : string) : option val :=
  match r.1 with
  | inr data => data !! k
  | inl _ => None
  end.

(** Equality of two values, each read in its own store, as Python's [==]
    sees them: the same immutable value, or two references to dictionaries
    that have the same keys with items equal in this sense.  The locations
    of the dictionaries play no part. *)
Definition is_ref (v : val) : bool :=
  match v with
  | VRef _ => true
  | _ => false
  end.

#[warnings="-register-all"] Inductive val_sim (σ1 σ2 : store) : val → val → Prop :=
  | val_sim_value (v : val) :
      is_ref v = false → val_sim σ1 σ2 v v
  | val_sim_dict (l1 l2 : loc) (d1 d2 : gmap string val) :
      lookup_dict σ1 l1 = Some d1 →
      lookup_dict σ2 l2 = Some d2 →
      (∀ k, option_Forall2 (val_sim σ1 σ2) (d1 !! k) (d2 !! k)) →
      val_sim σ1 σ2 (VRef l1) (VRef l2).

Definition dict_sim (σ1 σ2 : store) (d1 d2 : gmap string val) : Prop :=
  ∀ k, option_Forall2 (val_sim σ1 σ2) (d1 !! k) (d2 !! k).

(** Two results agree: the same exception, or returned values related
    by [R]. *)
Definition outcome_sim {A} (R : A → A → Prop) (r1 r2 : exn + A) : Prop :=
  match r1, r2 with
  | inl e1, inl e2 => e1 = e2
  | inr x1, inr x2 => R x1 x2
  | _, _ => False
  end.

(** Two API objects, each in its store, are in the same state: their
    attributes are equal, and their warning lists have the same length and
    refer, position by position, to equal warnings. *)
Definition same_api_state (σ1 : store) (a1 : DwdWeatherWarningsAPI)
    (σ2 : store) (a2 : DwdWeatherWarningsAPI) : Prop :=
  data_valid a1 = data_valid a2 ∧
  val_sim σ1 σ2 (warncell_id a1) (warncell_id a2) ∧
  val_sim σ1 σ2 (warncell_name a1) (warncell_name a2) ∧
  val_sim σ1 σ2 (last_update a1) (last_update a2) ∧
  val_sim σ1 σ2 (current_warning_level a1) (current_warning_level a2) ∧
  val_sim σ1 σ2 (expected_warning_level a1) (expected_warning_level a2) ∧
  Forall2 (λ l1 l2, val_sim σ1 σ2 (VRef l1) (VRef l2))
    (current_warnings a1) (current_warnings a2) ∧
  Forall2 (λ l1 l2, val_sim σ1 σ2 (VRef l1) (VRef l2))
    (expected_warnings a1) (expected_warnings a2).

Section vocabulary.
Context `{Constants}.

(** The pairs (suffix of the flat attribute, key of the warning) in the
    order of the loop body. *)
Definition warning_fields : list (string * string) := [
  ("_name", API_ATTR_WARNING_NAME);
  ("_type", API_ATTR_WARNING_TYPE);
  ("_level", API_ATTR_WARNING_LEVEL);
  ("_headline", API_ATTR_WARNING_HEADLINE);
  ("_description", API_ATTR_WARNING_DESCRIPTION);
  ("_instruction", API_ATTR_WARNING_INSTRUCTION);
  ("_start", API_ATTR_WARNING_START);
  ("_end", API_ATTR_WARNING_END);
  ("_parameters", API_ATTR_WARNING_PARAMETERS);
  ("_color", API_ATTR_WARNING_COLOR)
].

(** A warning as the API client builds it: it has the ten items. *)
Definition well_formed (w : gmap string val) : Prop :=
  Forall (λ f, is_Some (w !! f.2)) warning_fields.

(** The attribute [warning_{i}<suffix>] of [data] is the item [attr] of
    the warning [w]. *)
Definition flattened (data : gmap string val) (i : nat)
    (w : gmap string val) (suffix attr : string) : Prop :=
  ∃ v, w !! attr = Some v ∧ data !! warning_attr i suffix = Some v.

(** The ten item reads of the loop body on the items [d] of the warning,
    without the heap. *)
Fixpoint copy_fields (i : nat) (d : gmap string val)
    (fields : list (string * string)) (data : gmap string val) :
    exn + gmap string val :=
  match fields with
  | [] => inr data
  | (suffix, attr) :: rest =>
      match d !! attr with
      | Some v => copy_fields i d rest (<[warning_attr i suffix := v]> data)
      | None => inl (KeyError attr)
      end
  end.

End vocabulary.

(** The suffixes of the attributes that the loop stores for one warning:
    the composite attribute and the ten flat ones. *)
Definition warning_suffixes : list string := [
  ""; "_name"; "_type"; "_level"; "_headline"; "_description";
  "_instruction"; "_start"; "_end"; "_parameters"; "_color"
].

(** The attributes that are set before the loop. *)
Definition fixed_attributes : list string :=
  [ATTR_REGION_NAME; ATTR_REGION_ID; ATTR_LAST_UPDATE; ATTR_WARNING_COUNT].

(** [hass.data[DOMAIN][entry.entry_id]], when both keys are there. *)
Definition registered_coordinator (domain : string) (hass : HomeAssistant)
    (entry : ConfigEntry) : option loc :=
  by_entry ← data hass !! domain; by_entry !! entry_id entry.

Section platform_calls.
Context `{Constants}.

(** The two framework calls of one run of [async_setup_platform] on
    [config], in the order they are made. *)
Definition platform_calls (config : ConfigType) : list call := [
  async_create_issue HOMEASSISTANT_DOMAIN
    ("deprecated_yaml_" +:+ DOMAIN) "2023.12.0" false DOMAIN WARNING
    "deprecated_yaml"
    {[ "domain" := DOMAIN;
       "integration_title" :=
         "Deutscher Wetterdienst (DWD) Weather Warnings" ]};
  async_create_task
    (flow_async_init DOMAIN {[ "source" := SOURCE_IMPORT ]} config)
].

End platform_calls.

(** ** A sample installation

    The values of the constants as the integration ships them, and a store
    with one coordinator, its API client and three warnings; used to
    evaluate the model on concrete inputs. *)

Definition dwd_constants : Constants := {|
  API_ATTR_WARNING_NAME := "event";
  API_ATTR_WARNING_TYPE := "event_code";
  API_ATTR_WARNING_LEVEL := "level";
  API_ATTR_WARNING_HEADLINE := "headline";
  API_ATTR_WARNING_DESCRIPTION := "description";
  API_ATTR_WARNING_INSTRUCTION := "instruction";
  API_ATTR_WARNING_START := "start_time";
  API_ATTR_WARNING_END := "end_time";
  API_ATTR_WARNING_PARAMETERS := "parameters";
  API_ATTR_WARNING_COLOR := "color";
  DEFAULT_NAME := "DWD-Weather-Warnings";
  DOMAIN := "dwd_weather_warnings";
  HOMEASSISTANT_DOMAIN := "homeassistant";
  SOURCE_IMPORT := "import";
|}.

Definition sample_warning (event : string) (code level : Z)
    (start_time end_time : Z) : gmap string val :=
  <["event" := VStr event]>
  (<["event_code" := VInt code]>
  (<["level" := VInt level]>
  (<["headline" := VStr ("Amtliche WARNUNG vor " +:+ event)]>
  (<["description" := VStr "Es treten Windboeen auf."]>
  (<["instruction" := VNone]>
  (<["start_time" := VDateTime start_time]>
  (<["end_time" := VDateTime end_time]>
  (<["parameters" := VNone]>
  (<["color" := VStr "#ffff00"]>
  (<["region_name" := VStr "Stadt Hamburg"]> ∅)))))))))).

Definition sample_api : DwdWeatherWarningsAPI := {|
  data_valid := true;
  warncell_id := VInt 102000000;
  warncell_name := VStr "Stadt Hamburg";
  last_update := VDateTime 1700000000;
  current_warning_level := VInt 1;
  current_warnings := [3%positive];
  expected_warning_level := VInt 2;
  expected_warnings := [4%positive; 5%positive];
|}.

Definition sample_store : store := {|
  heap :=
    <[1%positive := OCoordinator {| coordinator_api := 2%positive |}]>
    (<[2%positive := OApi sample_api]>
    (<[3%positive := ODict (sample_warning "WINDBOEEN" 51 1 100 200)]>
    (<[4%positive := ODict (sample_warning "STURMBOEEN" 52 2 300 400)]>
    (<[5%positive := ODict (sample_warning "FROST" 22 1 500 600)]> ∅))));
  calls := [];
|}.

Definition sample_entry : ConfigEntry := {|
  entry_id := "0123456789abcdef";
  title := "Hamburg";
  unique_id := Some "102000000";
|}.

Definition sample_hass : HomeAssistant := {|
  data := {[ "dwd_weather_warnings" := {[ "0123456789abcdef" := 1%positive ]} ]};
|}.

Definition sample_sensor (description : SensorEntityDescription) :
    DwdWeatherWarningsSensor := {|
  coordinator := 1%positive;
  entity_description := description;
  _attr_name := "DWD-Weather-Warnings Hamburg " +:+ name description;
  _attr_unique_id := "102000000-" +:+ key description;
  _attr_device_info := {|
    identifiers := [("dwd_weather_warnings", "0123456789abcdef")];
    device_name := "DWD-Weather-Warnings Hamburg" |};
  api := 2%positive;
|}.

Definition current_sensor : DwdWeatherWarningsSensor :=
  sample_sensor {| key := CURRENT_WARNING_SENSOR;
                   name := "Current Warning Level";
                   icon := "mdi:close-octagon-outline" |}.

Definition advance_sensor : DwdWeatherWarningsSensor :=
  sample_sensor {| key := ADVANCE_WARNING_SENSOR;
                   name := "Advance Warning Level";
                   icon := "mdi:close-octagon-outline" |}.

(** The warnings that the sample API client holds, as dictionaries. *)
Definition sample_current : list (gmap string val) :=
  [sample_warning "WINDBOEEN" 51 1 100 200].

Definition sample_expected : list (gmap string val) :=
  [sample_warning "STURMBOEEN" 52 2 300 400;
   sample_warning "FROST" 22 1 500 600].

(** A second installation of the same region: other locations, one more
    object in the heap, a framework call already made, another entry. *)

Definition other_api : DwdWeatherWarningsAPI := {|
  data_valid := true;
  warncell_id := VInt 102000000;
  warncell_name := VStr "Stadt Hamburg";
  last_update := VDateTime 1700000000;
  current_warning_level := VInt 1;
  current_warnings := [21%positive];
  expected_warning_level := VInt 2;
  expected_warnings := [22%positive; 23%positive];
|}.

Definition other_store : store := {|
  heap :=
    <[20%positive := OApi other_api]>
    (<[21%positive := ODict (sample_warning "WINDBOEEN" 51 1 100 200)]>
    (<[22%positive := ODict (sample_warning "STURMBOEEN" 52 2 300 400)]>
    (<[23%positive := ODict (sample_warning "FROST" 22 1 500 600)]>
    (<[24%positive := ODict ∅]> ∅))));
  calls := [async_create_task (flow_async_init "dwd_weather_warnings" ∅ ∅)];
|}.

Definition other_sensor : DwdWeatherWarningsSensor := {|
  coordinator := 19%positive;
  entity_description :=
    {| key := CURRENT_WARNING_SENSOR;
       name := "Aktuelle Warnstufe";
       icon := "mdi:alert" |};
  _attr_name := "DWD-Weather-Warnings Zuhause Aktuelle Warnstufe";
  _attr_unique_id := "None-current_warning_level";
  _attr_device_info := {|
    identifiers := [("dwd_weather_warnings", "fedcba9876543210")];
    device_name := "DWD-Weather-Warnings Zuhause" |};
  api := 20%positive;
|}.

(** A store whose only current warning lacks the item ["event"]. *)
Definition truncated_store : store := {|
  heap :=
    <[2%positive := OApi sample_api]>
    (<[3%positive :=
         ODict (delete "event" (sample_warning "WINDBOEEN" 51 1 100 200))]> ∅);
  calls := [];
|}.

(** A callback that accepts the entities and does nothing else. *)
Definition ignore_entities : AddEntitiesCallback := λ _ _, mret ().

(** An entry for which no coordinator is registered, and two YAML
    configurations. *)
Definition unknown_entry : ConfigEntry := {|
  entry_id := "ffffffffffffffff";
  title := "Berlin";
  unique_id := None;
|}.

Definition yaml_hamburg : ConfigType :=
  {[ "region_name" := VStr "Hansestadt Hamburg" ]}.

Definition yaml_berlin : ConfigType :=
  {[ "region_name" := VStr "Berlin"; "name" := VStr "Hauptstadt" ]}.

(** An entry whose unique id is the string ["None"], and the sensors for
    the current level that the set-up builds for [unknown_entry], which has
    no unique id, and for this entry. *)
Definition bremen_entry : ConfigEntry := {|
  entry_id := "0000000000000000";
  title := "Bremen";
  unique_id := Some "None";
|}.

Definition berlin_sensor : DwdWeatherWarningsSensor := {|
  coordinator := 1%positive;
  entity_description :=
    {| key := CURRENT_WARNING_SENSOR;
       name := "Current Warning Level";
       icon := "mdi:close-octagon-outline" |};
  _attr_name := "DWD-Weather-Warnings Berlin Current Warning Level";
  _attr_unique_id := "None-current_warning_level";
  _attr_device_info := {|
    identifiers := [("dwd_weather_warnings", "ffffffffffffffff")];
    device_name := "DWD-Weather-Warnings Berlin" |};
  api := 2%positive;
|}.

Definition bremen_sensor : DwdWeatherWarningsSensor := {|
  coordinator := 1%positive;
  entity_description :=
    {| key := CURRENT_WARNING_SENSOR;
       name := "Current Warning Level";
       icon := "mdi:close-octagon-outline" |};
  _attr_name := "DWD-Weather-Warnings Bremen Current Warning Level";
  _attr_unique_id := "None-current_warning_level";
  _attr_device_info := {|
    identifiers := [("dwd_weather_warnings", "0000000000000000")];
    device_name := "DWD-Weather-Warnings Bremen" |};
  api := 2%positive;
|}.

(** A store in which the second expected warning lacks ["headline"]. *)
Definition headless_store : store := {|
  heap :=
    <[2%positive := OApi sample_api]>
    (<[3%positive := ODict (sample_warning "WINDBOEEN" 51 1 100 200)]>
    (<[4%positive := ODict (sample_warning "STURMBOEEN" 52 2 300 400)]>
    (<[5%positive :=
         ODict (delete "headline" (sample_warning "FROST" 22 1 500 600))]>
       ∅)));
  calls := [];
|}.

(** Two installations whose current warning has a nested dictionary under
    ["parameters"].  The nested dictionaries have the same items but are at
    different locations, and the second store has another dictionary at the
    location that the first one uses. *)
Definition wind_parameters : gmap string val :=
  {[ "Boeen" := VStr "~60 [km/h]"; "Richtung" := VStr "west" ]}.

Definition nested_api : DwdWeatherWarningsAPI := {|
  data_valid := true;
  warncell_id := VInt 102000000;
  warncell_name := VStr "Stadt Hamburg";
  last_update := VDateTime 1700000000;
  current_warning_level := VInt 1;
  current_warnings := [3%positive];
  expected_warning_level := VInt 0;
  expected_warnings := [];
|}.

Definition nested_store : store := {|
  heap :=
    <[2%positive := OApi nested_api]>
    (<[3%positive :=
         ODict (<["parameters" := VRef 9%positive]>
                  (sample_warning "WINDBOEEN" 51 1 100 200))]>
    (<[9%positive := ODict wind_parameters]> ∅));
  calls := [];
|}.

Definition nested_other_api : DwdWeatherWarningsAPI := {|
  data_valid := true;
  warncell_id := VInt 102000000;
  warncell_name := VStr "Stadt Hamburg";
  last_update := VDateTime 1700000000;
  current_warning_level := VInt 1;
  current_warnings := [21%positive];
  expected_warning_level := VInt 0;
  expected_warnings := [];
|}.

Definition nested_other_store : store := {|
  heap :=
    <[20%positive := OApi nested_other_api]>
    (<[21%positive :=
         ODict (<["parameters" := VRef 11%positive]>
                  (sample_warning "WINDBOEEN" 51 1 100 200))]>
    (<[11%positive := ODict wind_parameters]>
    (<[9%positive := ODict {[ "Boeen" := VStr "~100 [km/h]" ]}]> ∅)));
  calls := [async_create_task (flow_async_init "dwd_weather_warnings" ∅ ∅)];
|}.

(** A third installation: the warning refers to its parameters at the same
    location as in the first one, but the wind speed there is another. *)
Definition changed_api : DwdWeatherWarningsAPI := {|
  data_valid := true;
  warncell_id := VInt 102000000;
  warncell_name := VStr "Stadt Hamburg";
  last_update := VDateTime 1700000000;
  current_warning_level := VInt 1;
  current_warnings := [3%positive];
  expected_warning_level := VInt 0;
  expected_warnings := [];
|}.

Definition changed_store : store := {|
  heap :=
    <[2%positive := OApi changed_api]>
    (<[3%positive :=
         ODict (<["parameters" := VRef 9%positive]>
                  (sample_warning "WINDBOEEN" 51 1 100 200))]>
    (<[9%positive := ODict {[ "Boeen" := VStr "~100 [km/h]";
                              "Richtung" := VStr "west" ]}]> ∅));
  calls := [];
|}.

(** A tactic that establishes, by evaluation, that the sample warnings are
    well formed. *)
Ltac sample_well_formed := repeat constructor; by eexists.

(** A tactic that finds, by evaluation, an element in a list. *)
Ltac sample_elem_of :=
  vm_compute;
  solve [repeat first [apply list_elem_of_here | apply list_elem_of_further]].

(** ** Strings: the attribute names do not collide *)

Lemma string_app_cons (c : ascii) (s1 s2 : string) :
  String c s1 +:+ s2 = String c (s1 +:+ s2).
Proof. reflexivity. Qed.

Lemma string_app_nil_l (s : string) : "" +:+ s = s.
Proof. reflexivity. Qed.

Lemma string_app_assoc (s1 s2 s3 : string) :
  (s1 +:+ s2) +:+ s3 = s1 +:+ (s2 +:+ s3).
Proof.
  induction s1 as [|c s1 IH]; [done |].
  by rewrite !string_app_cons, IH.
Qed.

Lemma string_app_nil_r (s : string) : s +:+ "" = s.
Proof.
  induction s as [|c s IH]; [done |]. by rewrite string_app_cons, IH.
Qed.

Lemma digits_app (s1 s2 : string) :
  digits s1 = true → digits s2 = true → digits (s1 +:+ s2) = true.
Proof.
  induction s1 as [|c s1 IH]; [done |].
  rewrite string_app_cons. simpl.
  intros [Hc Hs1]%andb_true_iff Hs2. rewrite Hc. simpl. auto.
Qed.

Lemma pretty_N_char_digit (x : N) : is_digit (pretty_N_char x) = true.
Proof. unfold pretty_N_char. by repeat case_match. Qed.

Lemma pretty_N_go_digits (x : N) (s : string) :
  ∃ d, pretty_N_go x s = d +:+ s ∧ digits d = true ∧ ((0 < x)%N → d ≠ "").
Proof.
  revert s. induction (N.lt_wf_0 x) as [x _ IH]; intros s.
  destruct (decide (x = 0)%N) as [->|Hx].
  - exists "". rewrite pretty_N_go_0. split_and!; [done | done | lia].
  - rewrite pretty_N_go_step by lia.
    destruct (IH (x `div` 10)%N) with
      (s := String (pretty_N_char (x `mod` 10)) s) as (d & -> & Hd & _).
    { apply N.div_lt; lia. }
    exists (d +:+ String (pretty_N_char (x `mod` 10)) "").
    split_and!.
    + by rewrite string_app_assoc.
    + apply digits_app; [done |]. simpl. by rewrite pretty_N_char_digit.
    + intros _. by destruct d.
Qed.

Lemma pretty_nat_digits (n : nat) :
  ∃ c d, pretty n = String c d ∧ is_digit c = true ∧ digits d = true.
Proof.
  unfold pretty, pretty_nat, pretty, pretty_N.
  case_decide as Hn.
  - by exists "0"%char, "".
  - destruct (pretty_N_go_digits (N.of_nat n) "") as (d & -> & Hd & Hne).
    rewrite string_app_nil_r. destruct d as [|c d]; [destruct Hne; [lia | done] |].
    simpl in Hd. apply andb_true_iff in Hd as [??]. by exists c, d.
Qed.

Lemma digits_app_inv (d1 d2 s1 s2 : string) :
  digits d1 = true → digits d2 = true →
  no_digit_head s1 = true → no_digit_head s2 = true →
  d1 +:+ s1 = d2 +:+ s2 → d1 = d2 ∧ s1 = s2.
Proof.
  revert d2. induction d1 as [|c1 d1 IH]; intros [|c2 d2];
    rewrite ?string_app_cons, ?string_app_nil_l; simpl.
  - done.
  - intros _ [Hc _]%andb_true_iff Hs1 _ ->. simpl in Hs1.
    by rewrite Hc in Hs1.
  - intros [Hc _]%andb_true_iff _ _ Hs2 <-. simpl in Hs2.
    by rewrite Hc in Hs2.
  - intros [_ Hd1]%andb_true_iff [_ Hd2]%andb_true_iff Hs1 Hs2 [= -> Heq].
    destruct (IH d2) as [-> ->]; done.
Qed.

Lemma warning_attr_inj (i j : nat) (s t : string) :
  no_digit_head s = true → no_digit_head t = true →
  warning_attr i s = warning_attr j t → i = j ∧ s = t.
Proof.
  intros Hs Ht Heq. unfold warning_attr in Heq.
  apply (inj (String.app _)) in Heq.
  destruct (pretty_nat_digits i) as (ci & di & Hi & Hci & Hdi).
  destruct (pretty_nat_digits j) as (cj & dj & Hj & Hcj & Hdj).
  assert (digits (pretty i) = true) as Hdi'.
  { rewrite Hi. simpl. by rewrite Hci. }
  assert (digits (pretty j) = true) as Hdj'.
  { rewrite Hj. simpl. by rewrite Hcj. }
  destruct (digits_app_inv _ _ _ _ Hdi' Hdj' Hs Ht Heq) as [Hij ->].
  split; [|done]. by apply (inj pretty).
Qed.

Lemma warning_attr_suffix_inj (i : nat) (s t : string) :
  warning_attr i s = warning_attr i t → s = t.
Proof.
  unfold warning_attr. intros Heq. by do 2 apply (inj (String.app _)) in Heq.
Qed.

(** ** Running the monad *)

Lemma bind_run {A B} (m : M A) (k : A → M B) (σ : store) :
  (m ≫= k) σ =
    match m σ with
    | (inr a, σ') => k a σ'
    | (inl e, σ') => (inl e, σ')
    end.
Proof. reflexivity. Qed.

Lemma ret_run {A} (a : A) (σ : store) : (mret a : M A) σ = (inr a, σ).
Proof. reflexivity. Qed.

Lemma get_api_run (l : loc) (a : DwdWeatherWarningsAPI) (σ : store) :
  heap σ !! l = Some (OApi a) → get_api l σ = (inr a, σ).
Proof. unfold get_api. by intros ->. Qed.

Lemma get_api_state (l : loc) (σ : store) : (get_api l σ).2 = σ.
Proof. unfold get_api. by repeat case_match. Qed.

Lemma get_coordinator_run (l : loc) (c : DwdWeatherWarningsCoordinator)
    (σ : store) :
  heap σ !! l = Some (OCoordinator c) → get_coordinator l σ = (inr c, σ).
Proof. unfold get_coordinator. by intros ->. Qed.

Lemma getitem_run {V} (d : gmap string V) (k : string) (v : V) (σ : store) :
  d !! k = Some v → getitem d k σ = (inr v, σ).
Proof. unfold getitem. by intros ->. Qed.

Lemma preserved_refl (σ : store) : preserved σ σ.
Proof. by split. Qed.

Lemma preserved_lookup (σ σ' : store) (l : loc) (o : obj) :
  preserved σ σ' → heap σ !! l = Some o → heap σ' !! l = Some o.
Proof. intros [Hheap _] Hl. by eapply lookup_weaken. Qed.

Lemma preserved_trans (σ1 σ2 σ3 : store) :
  preserved σ1 σ2 → preserved σ2 σ3 → preserved σ1 σ3.
Proof.
  intros [Hh1 Hc1] [Hh2 Hc2]. split; [by etrans | congruence].
Qed.

Section properties.
Context `{Constants}.

(** *** Level and availability *)

(** C3: [native_value] returns [api.current_warning_level] when the key of
    the entity description is [CURRENT_WARNING_SENSOR], and
    [api.expected_warning_level] for every other key. *)
Theorem native_value_selects_level (self : DwdWeatherWarningsSensor)
    (σ : store) (a : DwdWeatherWarningsAPI) :
  heap σ !! api self = Some (OApi a) →
  (key (entity_description self) = CURRENT_WARNING_SENSOR →
     native_value self σ = (inr (current_warning_level a), σ)) ∧
  (key (entity_description self) ≠ CURRENT_WARNING_SENSOR →
     native_value self σ = (inr (expected_warning_level a), σ)).
Proof.
  intros Ha. unfold native_value. rewrite bind_run, (get_api_run _ a) by done.
  split; intros Hkey; case_decide; done.
Qed.

(** C9: [available] returns the value of [api.data_valid]. *)
Theorem available_is_data_valid (self : DwdWeatherWarningsSensor)
    (σ : store) (a : DwdWeatherWarningsAPI) :
  heap σ !! api self = Some (OApi a) →
  available self σ = (inr (data_valid a), σ).
Proof.
  intros Ha. unfold available. by rewrite bind_run, (get_api_run _ a).
Qed.

(** *** Platform set-up *)

(** C4: whatever the configuration, the callback and the discovery
    information, [async_setup_platform] makes two framework calls and no
    other: it creates the deprecation issue and schedules one import flow
    whose source is [SOURCE_IMPORT] and whose data is the configuration.
    The entity callback is not called: the outcome does not mention it. *)
Theorem async_setup_platform_imports (hass : HomeAssistant)
    (config : ConfigType) (add_entities : AddEntitiesCallback)
    (discovery_info : option DiscoveryInfoType) (σ : store) :
  async_setup_platform hass config add_entities discovery_info σ =
    (inr (),
     {| heap := heap σ;
        calls := calls σ ++ [
          async_create_issue HOMEASSISTANT_DOMAIN
            ("deprecated_yaml_" +:+ DOMAIN) "2023.12.0" false DOMAIN WARNING
            "deprecated_yaml"
            {[ "domain" := DOMAIN;
               "integration_title" :=
                 "Deutscher Wetterdienst (DWD) Weather Warnings" ]};
          async_create_task
            (flow_async_init DOMAIN {[ "source" := SOURCE_IMPORT ]} config)
        ] |}).
Proof.
  unfold async_setup_platform. rewrite bind_run. unfold record_call. simpl.
  by rewrite <- app_assoc.
Qed.

Lemma sensor_init_run (c : loc) (co : DwdWeatherWarningsCoordinator)
    (entry : ConfigEntry) (description : SensorEntityDescription)
    (σ : store) :
  heap σ !! c = Some (OCoordinator co) →
  ∃ s, DwdWeatherWarningsSensor_init c entry description σ = (inr s, σ) ∧
    entity_description s = description ∧
    coordinator s = c ∧
    api s = coordinator_api co ∧
    _attr_unique_id s =
      format_opt (unique_id entry) +:+ "-" +:+ key description.
Proof.
  intros Hc. unfold DwdWeatherWarningsSensor_init.
  rewrite bind_run, (get_coordinator_run _ co) by done.
  eexists. by rewrite ret_run.
Qed.

(** C2: [async_setup_entry] calls the entity callback once, with two
    sensors, one per entry of [SENSOR_TYPES]: the first has the key
    [current_warning_level], the second [advance_warning_level], and their
    unique ids, [entry.unique_id] and the key joined by a hyphen, differ. *)
Theorem async_setup_entry_adds_two_sensors (hass : HomeAssistant)
    (entry : ConfigEntry) (async_add_entities : AddEntitiesCallback)
    (σ : store) (by_entry : gmap string loc) (c : loc)
    (co : DwdWeatherWarningsCoordinator) :
  data hass !! DOMAIN = Some by_entry →
  by_entry !! entry_id entry = Some c →
  heap σ !! c = Some (OCoordinator co) →
  ∃ s1 s2,
    async_setup_entry hass entry async_add_entities σ =
      async_add_entities [s1; s2] true σ ∧
    entity_description <$> [s1; s2] = SENSOR_TYPES ∧
    key (entity_description s1) = "current_warning_level" ∧
    key (entity_description s2) = "advance_warning_level" ∧
    _attr_unique_id s1 =
      format_opt (unique_id entry) +:+ "-" +:+ "current_warning_level" ∧
    _attr_unique_id s2 =
      format_opt (unique_id entry) +:+ "-" +:+ "advance_warning_level" ∧
    _attr_unique_id s1 ≠ _attr_unique_id s2.
Proof.
  intros Hdom Hentry Hc. unfold async_setup_entry.
  rewrite bind_run, (getitem_run _ _ by_entry) by done.
  rewrite bind_run, (getitem_run _ _ c) by done.
  destruct (sensor_init_run c co entry
    {| key := CURRENT_WARNING_SENSOR; name := "Current Warning Level";
       icon := "mdi:close-octagon-outline" |} σ Hc)
    as (s1 & Hrun1 & Hd1 & _ & _ & Hid1).
  destruct (sensor_init_run c co entry
    {| key := ADVANCE_WARNING_SENSOR; name := "Advance Warning Level";
       icon := "mdi:close-octagon-outline" |} σ Hc)
    as (s2 & Hrun2 & Hd2 & _ & _ & Hid2).
  exists s1, s2. split_and!.
  - rewrite bind_run. unfold SENSOR_TYPES, mapM.
    rewrite bind_run, Hrun1, !bind_run, Hrun2, bind_run. by rewrite !ret_run.
  - simpl. by rewrite Hd1, Hd2.
  - by rewrite Hd1.
  - by rewrite Hd2.
  - done.
  - done.
  - rewrite Hid1, Hid2. simpl. intros Heq.
    apply (inj (String.app _)) in Heq. discriminate.
Qed.

(** *** The loop body *)

Lemma lookup_dict_Some (σ : store) (l : loc) (d : gmap string val) :
  lookup_dict σ l = Some d ↔ heap σ !! l = Some (ODict d).
Proof.
  unfold lookup_dict. split.
  - intros Hl. by repeat case_match; simplify_eq.
  - by intros ->.
Qed.

Lemma store_field_run (i : nat) (suffix attr : string) (l : loc)
    (d data : gmap string val) (σ : store) :
  lookup_dict σ l = Some d →
  store_field i suffix l attr data σ =
    (match d !! attr with
     | Some v => inr (<[warning_attr i suffix := v]> data)
     | None => inl (KeyError attr)
     end, σ).
Proof.
  intros Hl%lookup_dict_Some. unfold store_field, dict_getitem.
  rewrite bind_run, Hl. unfold getitem. by destruct (d !! attr).
Qed.

Lemma store_field_not_dict (i : nat) (suffix attr : string) (l : loc)
    (data : gmap string val) (σ : store) :
  lookup_dict σ l = None →
  store_field i suffix l attr data σ = (inl TypeError, σ).
Proof.
  unfold lookup_dict, store_field, dict_getitem. rewrite bind_run.
  intros Hl. by repeat case_match.
Qed.

Lemma flatten_warning_not_dict (i : nat) (l : loc)
    (data : gmap string val) (σ : store) :
  lookup_dict σ l = None →
  flatten_warning i l data σ = (inl TypeError, σ).
Proof.
  intros Hl. unfold flatten_warning.
  by rewrite bind_run, store_field_not_dict.
Qed.

Lemma copy_fields_other (i : nat) (d : gmap string val)
    (fields : list (string * string)) (data data' : gmap string val)
    (k : string) :
  copy_fields i d fields data = inr data' →
  (∀ f, f ∈ fields → k ≠ warning_attr i f.1) →
  data' !! k = data !! k.
Proof.
  revert data. induction fields as [|[suffix attr] fields IH]; simpl.
  - by intros data [= ->].
  - intros data Hrun Hk. destruct (d !! attr) as [v|]; [|done].
    rewrite (IH _ Hrun).
    + apply lookup_insert_ne. intros Heq.
      by apply (Hk (suffix, attr)); [left |].
    + intros f Hf. apply Hk. by right.
Qed.

Lemma copy_fields_lookup (i : nat) (d : gmap string val)
    (fields : list (string * string)) (data data' : gmap string val)
    (suffix attr : string) :
  NoDup fields.*1 →
  copy_fields i d fields data = inr data' →
  (suffix, attr) ∈ fields →
  data' !! warning_attr i suffix = d !! attr ∧ is_Some (d !! attr).
Proof.
  revert data. induction fields as [|[suffix' attr'] fields IH]; simpl.
  - intros _ _ _ Hin. by apply elem_of_nil in Hin.
  - intros data [Hnotin Hnodup]%NoDup_cons Hrun Hin.
    destruct (d !! attr') as [v|] eqn:Hv; [|done].
    apply elem_of_cons in Hin as [[= -> ->]|Hin]; [|by eapply IH].
    rewrite Hv. split; [|by eexists].
    rewrite (copy_fields_other _ _ _ _ _ _ Hrun).
    + apply lookup_insert_eq.
    + intros f Hf Heq%warning_attr_suffix_inj. apply Hnotin.
      rewrite Heq. by apply list_elem_of_fmap_2.
Qed.

Lemma copy_fields_well_formed (i : nat) (d : gmap string val)
    (fields : list (string * string)) (data : gmap string val) :
  Forall (λ f, is_Some (d !! f.2)) fields →
  ∃ data', copy_fields i d fields data = inr data'.
Proof.
  revert data. induction fields as [|[suffix attr] fields IH]; simpl.
  - intros data _. by eexists.
  - intros data [[v Hv] Hrest]%Forall_cons. simpl in Hv. rewrite Hv.
    by apply IH.
Qed.

Lemma warning_fields_NoDup : NoDup warning_fields.*1.
Proof.
  unfold warning_fields. simpl. by apply (bool_decide_unpack _).
Qed.

Lemma warning_fields_no_digit (f : string * string) :
  f ∈ warning_fields → no_digit_head f.1 = true.
Proof.
  unfold warning_fields. intros Hf.
  repeat (apply elem_of_cons in Hf as [->|Hf]; [done |]).
  by apply elem_of_nil in Hf.
Qed.

(** The loop body on a warning with items [d]: the ten reads succeed or
    the first missing item raises; then the copy is allocated, and the two
    item assignments leave it as it is. *)
Lemma flatten_warning_run (i : nat) (l : loc) (d data : gmap string val)
    (σ : store) :
  lookup_dict σ l = Some d →
  flatten_warning i l data σ =
    match copy_fields i d warning_fields data with
    | inl e => (inl e, σ)
    | inr data' =>
        let l' := fresh (dom (heap σ)) in
        (inr (<[warning_attr i "" := VRef l']> data'),
         {| heap := <[l' := ODict d]> (heap σ); calls := calls σ |})
    end.
Proof.
  intros Hl. unfold flatten_warning, warning_fields. simpl.
  repeat (
    lazymatch goal with
    | |- (store_field _ _ _ ?k _ ≫= _) _ = _ =>
        rewrite bind_run, (store_field_run _ _ k _ d) by done;
        destruct (d !! k) as [?|] eqn:?; [|done]
    end).
  apply lookup_dict_Some in Hl.
  rewrite bind_run. unfold dict_copy at 1. rewrite Hl.
  rewrite bind_run. erewrite getitem_run; last first.
  { rewrite !lookup_insert_ne by (by intros ?%warning_attr_suffix_inj).
    apply lookup_insert_eq. }
  rewrite bind_run. unfold dict_setitem at 1. simpl.
  rewrite lookup_insert_eq, insert_insert_eq, (insert_id d) by done.
  rewrite bind_run. erewrite getitem_run; last first.
  { rewrite !lookup_insert_ne by (by intros ?%warning_attr_suffix_inj).
    apply lookup_insert_eq. }
  rewrite bind_run. unfold dict_setitem at 1. simpl.
  rewrite lookup_insert_eq, insert_insert_eq, (insert_id d) by done.
  by rewrite ret_run.
Qed.

Lemma flatten_warning_preserved (i : nat) (l : loc)
    (data : gmap string val) (σ : store) :
  preserved σ (flatten_warning i l data σ).2.
Proof.
  destruct (lookup_dict σ l) as [d|] eqn:Hl.
  - rewrite (flatten_warning_run _ _ d) by done.
    destruct (copy_fields _ _ _ _); simpl; [apply preserved_refl |].
    split; [|done]. simpl. apply insert_subseteq.
    apply not_elem_of_dom, is_fresh.
  - rewrite flatten_warning_not_dict by done. apply preserved_refl.
Qed.

Lemma flatten_warnings_preserved (ls : list loc) (i : nat)
    (data : gmap string val) (σ : store) :
  preserved σ (flatten_warnings i ls data σ).2.
Proof.
  revert i data σ. induction ls as [|l ls IH]; intros i data σ; simpl.
  - apply preserved_refl.
  - rewrite bind_run.
    pose proof (flatten_warning_preserved i l data σ) as Hstep.
    destruct (flatten_warning i l data σ) as [[e|data'] σ']; [done |].
    eapply preserved_trans; [exact Hstep | apply IH].
Qed.

(** C5: evaluating [native_value], [available] and
    [extra_state_attributes] changes no object of the store, be it the
    coordinator, the API object or a warning dictionary, and makes no
    framework call; the first two leave the store as it is, the third only
    adds the copies it allocates. *)
Theorem sensor_properties_read_only (self : DwdWeatherWarningsSensor)
    (σ : store) :
  (native_value self σ).2 = σ ∧
  (available self σ).2 = σ ∧
  preserved σ (extra_state_attributes self σ).2.
Proof.
  split_and!.
  - unfold native_value. rewrite bind_run.
    pose proof (get_api_state (api self) σ) as Hσ.
    destruct (get_api (api self) σ) as [[e|a] σ']; simpl in *; [done |].
    by case_decide.
  - unfold available. rewrite bind_run.
    pose proof (get_api_state (api self) σ) as Hσ.
    by destruct (get_api (api self) σ) as [[e|a] σ'].
  - unfold extra_state_attributes. rewrite bind_run.
    pose proof (get_api_state (api self) σ) as Hσ.
    destruct (get_api (api self) σ) as [[e|a] σ']; simpl in *; subst σ'.
    + apply preserved_refl.
    + apply flatten_warnings_preserved.
Qed.

(** *** The loop *)

Lemma lookup_dict_preserved (σ σ' : store) (l : loc)
    (d : gmap string val) :
  preserved σ σ' → lookup_dict σ l = Some d → lookup_dict σ' l = Some d.
Proof.
  intros [Hheap _]. rewrite !lookup_dict_Some.
  intros Hl. by eapply lookup_weaken.
Qed.

Lemma warning_fields_suffix (f : string * string) :
  f ∈ warning_fields → f.1 ≠ "".
Proof.
  unfold warning_fields. intros Hf.
  repeat (apply elem_of_cons in Hf as [->|Hf]; [done |]).
  by apply elem_of_nil in Hf.
Qed.

(** The loop over well-formed warnings returns; it leaves alone the
    attributes that are not named after a warning of the range, and for
    the [n]-th warning it has stored the ten flat attributes and a
    reference to a new dictionary with the items of the warning. *)
Lemma flatten_warnings_run (ls : list loc) (ws : list (gmap string val)) :
  ∀ (i : nat) (data : gmap string val) (σ : store),
  Forall2 (λ l w, lookup_dict σ l = Some w) ls ws →
  Forall well_formed ws →
  ∃ data' σ',
    flatten_warnings i ls data σ = (inr data', σ') ∧
    preserved σ σ' ∧
    (∀ k, (∀ j suffix, i ≤ j → no_digit_head suffix = true →
             k ≠ warning_attr j suffix) →
          data' !! k = data !! k) ∧
    (∀ n w, ws !! n = Some w →
       (∀ f, f ∈ warning_fields →
          data' !! warning_attr (i + n) f.1 = w !! f.2) ∧
       ∃ l', data' !! warning_attr (i + n) "" = Some (VRef l') ∧
         heap σ !! l' = None ∧ lookup_dict σ' l' = Some w).
Proof.
  revert ws. induction ls as [|l ls IH]; intros ws i data σ Hls Hwf.
  - apply Forall2_nil_inv_l in Hls as ->. exists data, σ.
    split_and!; [done | apply preserved_refl | done |].
    intros n w Hn. by rewrite lookup_nil in Hn.
  - apply Forall2_cons_inv_l in Hls as (w & ws' & Hl & Hls & ->).
    apply Forall_cons in Hwf as [Hw Hwf].
    destruct (copy_fields_well_formed i w warning_fields data Hw)
      as [data1 Hcopy].
    set (l1 := fresh (dom (heap σ))).
    set (σ1 := {| heap := <[l1 := ODict w]> (heap σ); calls := calls σ |}).
    assert (heap σ !! l1 = None) as Hfresh.
    { apply not_elem_of_dom, is_fresh. }
    assert (preserved σ σ1) as Hσ1.
    { split; [|done]. by apply insert_subseteq. }
    destruct (IH ws' (S i) (<[warning_attr i "" := VRef l1]> data1) σ1)
      as (data' & σ' & Hrun & Hσ' & Hother & Hnth); [|done|].
    { eapply Forall2_impl; [exact Hls |].
      intros ???. by eapply lookup_dict_preserved. }
    assert (∀ suffix, no_digit_head suffix = true →
      data' !! warning_attr i suffix =
        <[warning_attr i "" := VRef l1]> data1 !! warning_attr i suffix)
      as Hhere.
    { intros suffix Hsuffix. apply Hother.
      intros j suffix' Hj Hsuffix' Heq.
      apply warning_attr_inj in Heq as [-> _]; [lia | done..]. }
    exists data', σ'. split_and!.
    + simpl. rewrite bind_run, (flatten_warning_run _ _ w), Hcopy by done.
      exact Hrun.
    + by eapply preserved_trans.
    + intros k Hk. rewrite Hother.
      * rewrite lookup_insert_ne by (by apply not_eq_sym, Hk).
        apply (copy_fields_other _ _ _ _ _ _ Hcopy).
        intros f Hf. apply Hk; [done |]. by apply warning_fields_no_digit.
      * intros j suffix Hj. apply Hk. lia.
    + intros [|n] w' Hn.
      * simpl in Hn. injection Hn as <-. rewrite Nat.add_0_r. split.
        -- intros f Hf. rewrite Hhere by by apply warning_fields_no_digit.
           rewrite lookup_insert_ne.
           ++ destruct f as [suffix attr].
              by apply (copy_fields_lookup _ _ _ _ _ _ _
                warning_fields_NoDup Hcopy).
           ++ intros Heq%warning_attr_suffix_inj.
              by apply (warning_fields_suffix f).
        -- exists l1. rewrite Hhere, lookup_insert_eq by done.
           split_and!; [done | done |].
           eapply lookup_dict_preserved; [exact Hσ' |].
           apply lookup_dict_Some. apply lookup_insert_eq.
      * simpl in Hn. rewrite Nat.add_succ_r.
        destruct (Hnth n w' Hn) as [Hfields (l' & Hl' & Hnew & Hcopy')].
        split; [done |]. exists l'. split_and!; [done | | done].
        destruct (heap σ !! l') as [o|] eqn:Ho; [|done].
        destruct Hσ1 as [Hheap _].
        apply (lookup_weaken _ _ _ _ Ho) in Hheap. congruence.
Qed.

Lemma searched_warnings_current (self : DwdWeatherWarningsSensor)
    (a : DwdWeatherWarningsAPI) :
  key (entity_description self) = CURRENT_WARNING_SENSOR →
  searched_warnings self a = current_warnings a.
Proof. intros Hkey. unfold searched_warnings. by case_decide. Qed.

Lemma searched_warnings_other (self : DwdWeatherWarningsSensor)
    (a : DwdWeatherWarningsAPI) :
  key (entity_description self) ≠ CURRENT_WARNING_SENSOR →
  searched_warnings self a = expected_warnings a.
Proof. intros Hkey. unfold searched_warnings. by case_decide. Qed.

(** On the whole property: the fixed attributes are set before the loop
    and the loop starts at one. *)
Lemma extra_state_attributes_run (self : DwdWeatherWarningsSensor)
    (σ : store) (a : DwdWeatherWarningsAPI) :
  heap σ !! api self = Some (OApi a) →
  extra_state_attributes self σ =
    flatten_warnings 1 (searched_warnings self a)
      (<[ATTR_WARNING_COUNT :=
           VInt (Z.of_nat (length (searched_warnings self a)))]>
         (<[ATTR_LAST_UPDATE := last_update a]>
            (<[ATTR_REGION_ID := warncell_id a]>
               (<[ATTR_REGION_NAME := warncell_name a]> ∅)))) σ.
Proof.
  intros Ha. unfold extra_state_attributes.
  by rewrite bind_run, (get_api_run _ a).
Qed.

Lemma extra_state_attributes_well_formed (self : DwdWeatherWarningsSensor)
    (σ : store) (a : DwdWeatherWarningsAPI)
    (ws : list (gmap string val)) :
  heap σ !! api self = Some (OApi a) →
  warning_dicts σ (searched_warnings self a) = Some ws →
  Forall well_formed ws →
  ∃ data σ',
    extra_state_attributes self σ = (inr data, σ') ∧
    (∀ k, (∀ j suffix, no_digit_head suffix = true →
             k ≠ warning_attr j suffix) →
          data !! k =
            <[ATTR_WARNING_COUNT := VInt (Z.of_nat (length ws))]>
              (<[ATTR_LAST_UPDATE := last_update a]>
                 (<[ATTR_REGION_ID := warncell_id a]>
                    (<[ATTR_REGION_NAME := warncell_name a]>
                       (∅ : gmap string val)))) !! k) ∧
    (∀ n w, ws !! n = Some w →
       (∀ f, f ∈ warning_fields →
          data !! warning_attr (S n) f.1 = w !! f.2) ∧
       ∃ l', data !! warning_attr (S n) "" = Some (VRef l') ∧
         heap σ !! l' = None ∧ lookup_dict σ' l' = Some w).
Proof.
  intros Ha Hws%mapM_Some_1 Hwf.
  rewrite (extra_state_attributes_run _ _ a) by done.
  rewrite (Forall2_length _ _ _ Hws).
  edestruct (flatten_warnings_run (searched_warnings self a) ws 1)
    as (data & σ' & Hrun & _ & Hk & Hnth); [exact Hws | exact Hwf |].
  exists data, σ'. split_and!; [exact Hrun | | exact Hnth].
  intros k Hne. apply Hk. intros j suffix _. apply Hne.
Qed.

(** C1: take the list [api.current_warnings] when the key of the sensor is
    [CURRENT_WARNING_SENSOR] and the list [api.expected_warnings] for any
    other key.  When the warnings of that list are well formed, the property
    returns a dictionary in which, for the i-th warning of the list counted
    from one, the ten attributes [warning_i_name] ... [warning_i_color] hold
    the corresponding items of that warning. *)
Theorem extra_state_attributes_flattens (self : DwdWeatherWarningsSensor)
    (σ : store) (a : DwdWeatherWarningsAPI)
    (ws : list (gmap string val)) :
  heap σ !! api self = Some (OApi a) →
  warning_dicts σ
    (if decide (key (entity_description self) = CURRENT_WARNING_SENSOR)
     then current_warnings a
     else expected_warnings a) = Some ws →
  Forall well_formed ws →
  ∃ data σ',
    extra_state_attributes self σ = (inr data, σ') ∧
    ∀ i w, ws !! i = Some w →
      flattened data (S i) w "_name" API_ATTR_WARNING_NAME ∧
      flattened data (S i) w "_type" API_ATTR_WARNING_TYPE ∧
      flattened data (S i) w "_level" API_ATTR_WARNING_LEVEL ∧
      flattened data (S i) w "_headline" API_ATTR_WARNING_HEADLINE ∧
      flattened data (S i) w "_description" API_ATTR_WARNING_DESCRIPTION ∧
      flattened data (S i) w "_instruction" API_ATTR_WARNING_INSTRUCTION ∧
      flattened data (S i) w "_start" API_ATTR_WARNING_START ∧
      flattened data (S i) w "_end" API_ATTR_WARNING_END ∧
      flattened data (S i) w "_parameters" API_ATTR_WARNING_PARAMETERS ∧
      flattened data (S i) w "_color" API_ATTR_WARNING_COLOR.
Proof.
  intros Ha Hws Hwf.
  destruct (extra_state_attributes_well_formed self σ a ws)
    as (data & σ' & Hrun & _ & Hnth); [done.. |].
  exists data, σ'. split; [done |]. intros i w Hi.
  destruct (Hnth i w Hi) as [Hfields _].
  assert (∀ f, f ∈ warning_fields → flattened data (S i) w f.1 f.2) as Hf.
  { intros f Hin. unfold flattened. rewrite (Hfields f Hin).
    eapply Forall_forall in Hwf; [|by eapply list_elem_of_lookup_2].
    eapply Forall_forall in Hwf as [v Hv]; [|exact Hin].
    by exists v. }
  split_and!;
    match goal with
    | |- flattened _ _ _ ?suffix ?attr => apply (Hf (suffix, attr))
    end; unfold warning_fields;
    repeat first [by apply list_elem_of_here | apply list_elem_of_further].
Qed.

(** C7: when the selected warnings are well formed, the returned
    dictionary has [region_name], [region_id] and [last_update], taken
    from [api.warncell_name], [api.warncell_id] and [api.last_update], and
    [warning_count], the length of the selected list (zero when it is
    empty). *)
Theorem extra_state_attributes_fixed_keys (self : DwdWeatherWarningsSensor)
    (σ : store) (a : DwdWeatherWarningsAPI)
    (ws : list (gmap string val)) :
  heap σ !! api self = Some (OApi a) →
  warning_dicts σ (searched_warnings self a) = Some ws →
  Forall well_formed ws →
  ∃ data σ',
    extra_state_attributes self σ = (inr data, σ') ∧
    data !! "region_name" = Some (warncell_name a) ∧
    data !! "region_id" = Some (warncell_id a) ∧
    data !! "last_update" = Some (last_update a) ∧
    data !! "warning_count" = Some (VInt (Z.of_nat (length ws))).
Proof.
  intros Ha Hws Hwf.
  destruct (extra_state_attributes_well_formed self σ a ws)
    as (data & σ' & Hrun & Hk & _); [done.. |].
  exists data, σ'.
  split_and!; [done | rewrite Hk; [done |]..];
    intros j suffix _; unfold warning_attr;
    try (by intros [=]).
  destruct (pretty_nat_digits j) as (c & d & -> & Hc & _).
  intros [= <-]. done.
Qed.

(** C8: when the selected warnings are well formed, the attribute
    [warning_i] of the returned dictionary refers to a dictionary that was
    allocated by the property and has exactly the items of the i-th
    warning of the list: the two item assignments on the copy changed
    nothing. *)
Theorem extra_state_attributes_copies (self : DwdWeatherWarningsSensor)
    (σ : store) (a : DwdWeatherWarningsAPI)
    (ws : list (gmap string val)) :
  heap σ !! api self = Some (OApi a) →
  warning_dicts σ (searched_warnings self a) = Some ws →
  Forall well_formed ws →
  ∃ data σ',
    extra_state_attributes self σ = (inr data, σ') ∧
    ∀ i w, ws !! i = Some w →
      ∃ l', data !! warning_attr (S i) "" = Some (VRef l') ∧
        heap σ !! l' = None ∧
        heap σ' !! l' = Some (ODict w).
Proof.
  intros Ha Hws Hwf.
  destruct (extra_state_attributes_well_formed self σ a ws)
    as (data & σ' & Hrun & _ & Hnth); [done.. |].
  exists data, σ'. split; [done |]. intros i w Hi.
  destruct (Hnth i w Hi) as [_ (l' & Hl' & Hnew & Hcopy)].
  exists l'. by rewrite <- lookup_dict_Some.
Qed.

(** *** Two evaluations *)

Lemma val_equiv_preserved (σ1 σ1' σ2 σ2' : store) (v1 v2 : val) :
  preserved σ1 σ1' → preserved σ2 σ2' →
  val_equiv σ1 σ2 v1 v2 → val_equiv σ1' σ2' v1 v2.
Proof.
  intros Hσ1 Hσ2 [->|(l1 & l2 & d & -> & -> & Hl1 & Hl2)]; [by left |].
  right. exists l1, l2, d.
  split_and!; [done | done | |]; by eapply lookup_dict_preserved.
Qed.

Lemma data_equiv_preserved (σ1 σ1' σ2 σ2' : store)
    (d1 d2 : gmap string val) :
  preserved σ1 σ1' → preserved σ2 σ2' →
  data_equiv σ1 σ2 d1 d2 → data_equiv σ1' σ2' d1 d2.
Proof.
  intros Hσ1 Hσ2 Hd k. specialize (Hd k).
  destruct Hd; constructor. by eapply val_equiv_preserved.
Qed.

Lemma data_equiv_insert (σ1 σ2 : store) (d1 d2 : gmap string val)
    (k : string) (v1 v2 : val) :
  val_equiv σ1 σ2 v1 v2 → data_equiv σ1 σ2 d1 d2 →
  data_equiv σ1 σ2 (<[k := v1]> d1) (<[k := v2]> d2).
Proof.
  intros Hv Hd k'. destruct (decide (k = k')) as [->|Hne].
  - rewrite !lookup_insert_eq. by constructor.
  - rewrite !lookup_insert_ne by done. apply Hd.
Qed.

Lemma data_equiv_refl (σ1 σ2 : store) (d : gmap string val) :
  data_equiv σ1 σ2 d d.
Proof. intros k. destruct (d !! k); constructor. by left. Qed.

Lemma copy_fields_equiv (σ1 σ2 : store) (i : nat) (d : gmap string val)
    (fields : list (string * string)) (data1 data2 : gmap string val) :
  data_equiv σ1 σ2 data1 data2 →
  match copy_fields i d fields data1, copy_fields i d fields data2 with
  | inl e1, inl e2 => e1 = e2
  | inr d1, inr d2 => data_equiv σ1 σ2 d1 d2
  | _, _ => False
  end.
Proof.
  revert data1 data2.
  induction fields as [|[suffix attr] fields IH]; intros data1 data2 Hd;
    simpl; [done |].
  destruct (d !! attr) as [v|]; [|done].
  apply IH, data_equiv_insert; [by left | done].
Qed.

Lemma flatten_warnings_equiv (ws : list (gmap string val)) :
  ∀ (ls1 ls2 : list loc) (i : nat) (data1 data2 : gmap string val)
    (σ1 σ2 : store),
  Forall2 (λ l w, lookup_dict σ1 l = Some w) ls1 ws →
  Forall2 (λ l w, lookup_dict σ2 l = Some w) ls2 ws →
  data_equiv σ1 σ2 data1 data2 →
  outcome_equiv (flatten_warnings i ls1 data1 σ1)
    (flatten_warnings i ls2 data2 σ2).
Proof.
  induction ws as [|w ws IH]; intros ls1 ls2 i data1 data2 σ1 σ2 H1 H2 Hd.
  - apply Forall2_nil_inv_r in H1 as ->.
    by apply Forall2_nil_inv_r in H2 as ->.
  - apply Forall2_cons_inv_r in H1 as (l1 & ls1' & Hl1 & H1 & ->).
    apply Forall2_cons_inv_r in H2 as (l2 & ls2' & Hl2 & H2 & ->).
    simpl. rewrite !bind_run.
    rewrite (flatten_warning_run _ _ w _ σ1) by done.
    rewrite (flatten_warning_run _ _ w _ σ2) by done.
    pose proof (copy_fields_equiv σ1 σ2 i w warning_fields _ _ Hd) as Hc.
    destruct (copy_fields i w warning_fields data1) as [e1|data1'],
      (copy_fields i w warning_fields data2) as [e2|data2'];
      try done.
    simpl.
    set (l1' := fresh (dom (heap σ1))). set (l2' := fresh (dom (heap σ2))).
    set (σ1' := {| heap := <[l1' := ODict w]> (heap σ1);
                   calls := calls σ1 |}).
    set (σ2' := {| heap := <[l2' := ODict w]> (heap σ2);
                   calls := calls σ2 |}).
    assert (preserved σ1 σ1') as Hσ1.
    { split; [|done]. apply insert_subseteq, not_elem_of_dom, is_fresh. }
    assert (preserved σ2 σ2') as Hσ2.
    { split; [|done]. apply insert_subseteq, not_elem_of_dom, is_fresh. }
    apply IH.
    + eapply Forall2_impl; [exact H1 |].
      intros ???. by eapply lookup_dict_preserved.
    + eapply Forall2_impl; [exact H2 |].
      intros ???. by eapply lookup_dict_preserved.
    + apply data_equiv_insert.
      * right. exists l1', l2', w. split_and!; [done | done | |];
          apply lookup_dict_Some, lookup_insert_eq.
      * by eapply data_equiv_preserved.
Qed.

Lemma val_sim_preserved (σ1 σ1' σ2 σ2' : store) :
  preserved σ1 σ1' → preserved σ2 σ2' →
  ∀ v1 v2, val_sim σ1 σ2 v1 v2 → val_sim σ1' σ2' v1 v2.
Proof.
  intros Hσ1 Hσ2. fix IH 3.
  intros v1 v2 [v Hv | l1 l2 d1 d2 Hl1 Hl2 Hitems].
  - by apply val_sim_value.
  - apply (val_sim_dict _ _ _ _ d1 d2);
      [by eapply lookup_dict_preserved.. |].
    intros k. destruct (Hitems k) as [x y Hxy|]; constructor.
    by apply IH.
Qed.

Lemma dict_sim_preserved (σ1 σ1' σ2 σ2' : store) (d1 d2 : gmap string val) :
  preserved σ1 σ1' → preserved σ2 σ2' →
  dict_sim σ1 σ2 d1 d2 → dict_sim σ1' σ2' d1 d2.
Proof.
  intros Hσ1 Hσ2 Hd k. destruct (Hd k); constructor.
  by eapply val_sim_preserved.
Qed.

Lemma dict_sim_empty (σ1 σ2 : store) : dict_sim σ1 σ2 ∅ ∅.
Proof. intros k. rewrite !lookup_empty. constructor. Qed.

Lemma dict_sim_insert (σ1 σ2 : store) (d1 d2 : gmap string val)
    (k : string) (v1 v2 : val) :
  val_sim σ1 σ2 v1 v2 → dict_sim σ1 σ2 d1 d2 →
  dict_sim σ1 σ2 (<[k := v1]> d1) (<[k := v2]> d2).
Proof.
  intros Hv Hd k'. destruct (decide (k = k')) as [->|Hne].
  - rewrite !lookup_insert_eq. by constructor.
  - rewrite !lookup_insert_ne by done. apply Hd.
Qed.

Lemma val_sim_dict_inv (σ1 σ2 : store) (l1 l2 : loc) :
  val_sim σ1 σ2 (VRef l1) (VRef l2) →
  ∃ d1 d2, lookup_dict σ1 l1 = Some d1 ∧ lookup_dict σ2 l2 = Some d2 ∧
    dict_sim σ1 σ2 d1 d2.
Proof.
  inversion 1 as [v Hv | l1' l2' d1 d2 Hl1 Hl2 Hitems]; [done |].
  by exists d1, d2.
Qed.

Lemma copy_fields_sim (σ1 σ2 : store) (i : nat) (d1 d2 : gmap string val)
    (fields : list (string * string)) (data1 data2 : gmap string val) :
  dict_sim σ1 σ2 d1 d2 →
  dict_sim σ1 σ2 data1 data2 →
  outcome_sim (dict_sim σ1 σ2)
    (copy_fields i d1 fields data1) (copy_fields i d2 fields data2).
Proof.
  intros Hd. revert data1 data2.
  induction fields as [|[suffix attr] fields IH]; intros data1 data2 Hdata;
    simpl; [done |].
  destruct (Hd attr) as [v1 v2 Hv|]; [|done].
  by apply IH, dict_sim_insert.
Qed.

Lemma flatten_warnings_sim (ls1 : list loc) :
  ∀ (ls2 : list loc) (i : nat) (data1 data2 : gmap string val)
    (σ1 σ2 : store),
  Forall2 (λ l1 l2, val_sim σ1 σ2 (VRef l1) (VRef l2)) ls1 ls2 →
  dict_sim σ1 σ2 data1 data2 →
  outcome_sim
    (dict_sim (flatten_warnings i ls1 data1 σ1).2
       (flatten_warnings i ls2 data2 σ2).2)
    (flatten_warnings i ls1 data1 σ1).1
    (flatten_warnings i ls2 data2 σ2).1.
Proof.
  induction ls1 as [|l1 ls1 IH]; intros ls2 i data1 data2 σ1 σ2 Hls Hdata.
  - by apply Forall2_nil_inv_l in Hls as ->.
  - apply Forall2_cons_inv_l in Hls as (l2 & ls2' & Hl & Hls & ->).
    apply val_sim_dict_inv in Hl as (d1 & d2 & Hl1 & Hl2 & Hd).
    simpl. rewrite !bind_run.
    rewrite (flatten_warning_run _ _ d1 _ σ1) by done.
    rewrite (flatten_warning_run _ _ d2 _ σ2) by done.
    pose proof (copy_fields_sim σ1 σ2 i d1 d2 warning_fields _ _ Hd Hdata)
      as Hc.
    destruct (copy_fields i d1 warning_fields data1) as [e1|data1'],
      (copy_fields i d2 warning_fields data2) as [e2|data2'];
      try done.
    simpl in Hc. simpl.
    set (l1' := fresh (dom (heap σ1))). set (l2' := fresh (dom (heap σ2))).
    set (σ1' := {| heap := <[l1' := ODict d1]> (heap σ1);
                   calls := calls σ1 |}).
    set (σ2' := {| heap := <[l2' := ODict d2]> (heap σ2);
                   calls := calls σ2 |}).
    assert (preserved σ1 σ1') as Hσ1.
    { split; [|done]. apply insert_subseteq, not_elem_of_dom, is_fresh. }
    assert (preserved σ2 σ2') as Hσ2.
    { split; [|done]. apply insert_subseteq, not_elem_of_dom, is_fresh. }
    apply IH.
    + eapply Forall2_impl; [exact Hls |].
      intros ???. by eapply val_sim_preserved.
    + apply dict_sim_insert; [|by eapply dict_sim_preserved].
      apply (val_sim_dict _ _ _ _ d1 d2).
      * apply lookup_dict_Some, lookup_insert_eq.
      * apply lookup_dict_Some, lookup_insert_eq.
      * by eapply dict_sim_preserved.
Qed.

(** C6: two evaluations, possibly by different sensors and in different
    stores, agree when the sensors have the same description key and the
    API objects are in the same state, whatever the locations at which the
    warnings and their nested dictionaries are held: [native_value] and
    [available] give equal results, and [extra_state_attributes] raises the
    same exception or returns dictionaries with the same keys and equal
    items. *)
Theorem sensor_properties_deterministic
    (self1 self2 : DwdWeatherWarningsSensor) (σ1 σ2 : store)
    (a1 a2 : DwdWeatherWarningsAPI) :
  key (entity_description self1) = key (entity_description self2) →
  heap σ1 !! api self1 = Some (OApi a1) →
  heap σ2 !! api self2 = Some (OApi a2) →
  same_api_state σ1 a1 σ2 a2 →
  outcome_sim (val_sim σ1 σ2)
    (native_value self1 σ1).1 (native_value self2 σ2).1 ∧
  (available self1 σ1).1 = (available self2 σ2).1 ∧
  outcome_sim
    (dict_sim (extra_state_attributes self1 σ1).2
       (extra_state_attributes self2 σ2).2)
    (extra_state_attributes self1 σ1).1
    (extra_state_attributes self2 σ2).1.
Proof.
  intros Hkey Ha1 Ha2
    (Hvalid & Hid & Hname & Hupdate & Hcur & Hexp & Hcws & Hews).
  split_and!.
  - unfold native_value.
    rewrite !bind_run, (get_api_run _ a1), (get_api_run _ a2) by done.
    rewrite Hkey. by case_decide.
  - unfold available.
    rewrite !bind_run, (get_api_run _ a1), (get_api_run _ a2) by done.
    simpl. congruence.
  - rewrite (extra_state_attributes_run _ _ a1) by done.
    rewrite (extra_state_attributes_run _ _ a2) by done.
    assert (Forall2 (λ l1 l2, val_sim σ1 σ2 (VRef l1) (VRef l2))
      (searched_warnings self1 a1) (searched_warnings self2 a2)) as Hws.
    { unfold searched_warnings. rewrite Hkey. by case_decide. }
    rewrite (Forall2_length _ _ _ Hws).
    apply flatten_warnings_sim; [done |].
    repeat (apply dict_sim_insert; [first [done | by apply val_sim_value] |]).
    apply dict_sim_empty.
Qed.

End properties.

(** ** Further properties of the platform *)

Lemma string_length_app (s1 s2 : string) :
  String.length (s1 +:+ s2) = String.length s1 + String.length s2.
Proof.
  induction s1 as [|c s1 IH]; [done |].
  rewrite string_app_cons. simpl. by rewrite IH.
Qed.

Lemma string_app_inv_length (s1 s2 t1 t2 : string) :
  String.length t1 = String.length t2 →
  s1 +:+ t1 = s2 +:+ t2 → s1 = s2 ∧ t1 = t2.
Proof.
  revert s2. induction s1 as [|c1 s1 IH]; intros [|c2 s2] Hlen;
    rewrite ?string_app_cons, ?string_app_nil_l.
  - done.
  - intros ->. simpl in Hlen. rewrite string_length_app in Hlen. lia.
  - intros <-. simpl in Hlen. rewrite string_length_app in Hlen. lia.
  - intros [= -> Heq]. by destruct (IH s2 Hlen Heq) as [-> ->].
Qed.

Lemma warning_suffixes_no_digit (s : string) :
  s ∈ warning_suffixes → no_digit_head s = true.
Proof.
  unfold warning_suffixes. intros Hs.
  repeat (apply elem_of_cons in Hs as [->|Hs]; [done |]).
  by apply elem_of_nil in Hs.
Qed.

Lemma fixed_attribute_not_warning (k : string) (i : nat) (s : string) :
  k ∈ fixed_attributes → k ≠ warning_attr i s.
Proof.
  unfold fixed_attributes, warning_attr. intros Hk.
  repeat (apply elem_of_cons in Hk as [->|Hk]; [by intros [=] |]).
  - apply elem_of_cons in Hk as [->|Hk]; [|by apply elem_of_nil in Hk].
    destruct (pretty_nat_digits i) as (c & d & -> & Hc & _).
    intros [= <-]. done.
Qed.

Section more_properties.
Context `{Constants}.

(** *** Names of the attributes *)

(** X1: the names [warning_{i}<suffix>] are unambiguous: two of them with
    different numbers or different suffixes are different strings, whatever
    the number of digits of [i]. *)
Theorem warning_attribute_names_distinct (i j : nat) (s t : string) :
  s ∈ warning_suffixes → t ∈ warning_suffixes →
  i ≠ j ∨ s ≠ t →
  warning_attr i s ≠ warning_attr j t.
Proof.
  intros Hs%warning_suffixes_no_digit Ht%warning_suffixes_no_digit Hne Heq.
  apply warning_attr_inj in Heq as [-> ->]; [|done..]. by destruct Hne.
Qed.

Lemma warning_suffixes_fields : warning_suffixes = "" :: warning_fields.*1.
Proof. reflexivity. Qed.

(** *** The keys of the returned dictionary *)

(** What a successful run of the loop on a non-empty list went through. *)
Lemma flatten_warnings_cons_inv (i : nat) (l : loc) (ls : list loc)
    (data data' : gmap string val) (σ σ' : store) :
  flatten_warnings i (l :: ls) data σ = (inr data', σ') →
  ∃ d data1,
    lookup_dict σ l = Some d ∧
    copy_fields i d warning_fields data = inr data1 ∧
    flatten_warnings (S i) ls
      (<[warning_attr i "" := VRef (fresh (dom (heap σ)))]> data1)
      {| heap := <[fresh (dom (heap σ)) := ODict d]> (heap σ);
         calls := calls σ |} = (inr data', σ').
Proof.
  simpl. rewrite bind_run.
  destruct (lookup_dict σ l) as [d|] eqn:Hl.
  - rewrite (flatten_warning_run _ _ d) by done.
    destruct (copy_fields i d warning_fields data) as [e|data1] eqn:Hcopy;
      [done |].
    intros Hrun. by exists d, data1.
  - by rewrite flatten_warning_not_dict.
Qed.

Lemma copy_fields_keys (i : nat) (d : gmap string val)
    (fields : list (string * string)) (data data' : gmap string val)
    (k : string) :
  copy_fields i d fields data = inr data' →
  is_Some (data' !! k) ↔
    is_Some (data !! k) ∨ ∃ f, f ∈ fields ∧ k = warning_attr i f.1.
Proof.
  revert data. induction fields as [|[suffix attr] fields IH]; simpl.
  - intros data [= ->]. split; [by left |].
    intros [? | (f & Hf & _)]; [done |]. by apply elem_of_nil in Hf.
  - intros data Hrun. destruct (d !! attr) as [v|]; [|done].
    rewrite (IH _ Hrun), lookup_insert_is_Some. split.
    + intros [[<- | [_ ?]] | (f & Hf & ->)].
      * right. exists (suffix, attr). split; [left | done].
      * by left.
      * right. exists f. split; [by right | done].
    + intros [Hk | (f & [-> | Hf]%elem_of_cons & ->)].
      * destruct (decide (warning_attr i suffix = k)); eauto.
      * left. by left.
      * right. by exists f.
Qed.

Lemma copy_fields_size (i : nat) (d : gmap string val)
    (fields : list (string * string)) (data data' : gmap string val) :
  NoDup fields.*1 →
  (∀ f, f ∈ fields → data !! warning_attr i f.1 = None) →
  copy_fields i d fields data = inr data' →
  size data' = size data + length fields.
Proof.
  revert data. induction fields as [|[suffix attr] fields IH]; simpl.
  - intros data _ _ [= ->]. lia.
  - intros data [Hnotin Hnodup]%NoDup_cons Hnew Hrun.
    destruct (d !! attr) as [v|]; [|done].
    rewrite (IH _ Hnodup) by first
      [ done
      | intros f Hf; rewrite lookup_insert_ne;
        [ apply Hnew; by right
        | intros Heq%warning_attr_suffix_inj; apply Hnotin;
          rewrite Heq; by apply list_elem_of_fmap_2 ] ].
    rewrite map_size_insert_None; [lia |]. apply (Hnew (suffix, attr)).
    by left.
Qed.

(** A dictionary is untouched by the warnings from [i] on when none of its
    keys is the name of an attribute of such a warning. *)
Lemma flatten_warnings_keys (ls : list loc) :
  ∀ (i : nat) (data data' : gmap string val) (σ σ' : store),
  (∀ k, is_Some (data !! k) →
     ∀ j s, i ≤ j → no_digit_head s = true → k ≠ warning_attr j s) →
  flatten_warnings i ls data σ = (inr data', σ') →
  (∀ k, is_Some (data' !! k) ↔
     is_Some (data !! k) ∨
     ∃ n s, n < length ls ∧ s ∈ warning_suffixes ∧
       k = warning_attr (i + n) s) ∧
  size data' = size data + 11 * length ls.
Proof.
  induction ls as [|l ls IH]; intros i data data' σ σ' Hdata Hrun.
  - simpl in Hrun. injection Hrun as <- <-. split; [|simpl; lia].
    intros k. split; [by left |].
    intros [? | (n & s & Hn & _)]; [done | simpl in Hn; lia].
  - apply flatten_warnings_cons_inv in Hrun
      as (d & data1 & Hl & Hcopy & Hrun).
    assert (∀ k, is_Some (data1 !! k) ↔
      is_Some (data !! k) ∨
      ∃ s, s ∈ warning_fields.*1 ∧ k = warning_attr i s) as Hkeys1.
    { intros k. rewrite (copy_fields_keys _ _ _ _ _ _ Hcopy). split.
      - intros [? | (f & Hf & ->)]; [by left |].
        right. exists f.1. split; [by apply list_elem_of_fmap_2 | done].
      - intros [? | (s & (f & -> & Hf)%list_elem_of_fmap_1 & ->)];
          [by left |].
        right. by exists f. }
    assert (data1 !! warning_attr i "" = None) as Hnone.
    { apply eq_None_not_Some. rewrite Hkeys1.
      intros [Hk | (s & (f & -> & Hf)%list_elem_of_fmap_1
                       & Heq%warning_attr_suffix_inj)].
      - by apply (Hdata _ Hk i "").
      - by apply (warning_fields_suffix f). }
    set (data2 :=
      <[warning_attr i "" := VRef (fresh (dom (heap σ)))]> data1) in *.
    assert (∀ k, is_Some (data2 !! k) →
      ∀ j s, S i ≤ j → no_digit_head s = true → k ≠ warning_attr j s)
      as Hinv.
    { intros k [<- | [_ Hk]]%lookup_insert_is_Some j s Hj Hs.
      - intros Heq%warning_attr_inj; [|done..]. lia.
      - apply Hkeys1 in Hk
          as [Hk | (s' & (f & -> & Hf)%list_elem_of_fmap_1 & ->)].
        + apply (Hdata _ Hk); [lia | done].
        + intros Heq%warning_attr_inj;
            [lia | by apply warning_fields_no_digit | done]. }
    destruct (IH _ _ _ _ _ Hinv Hrun) as [Hkeys Hsize].
    unfold data2 in *. clear data2.
    split.
    + intros k. rewrite Hkeys, lookup_insert_is_Some, Hkeys1.
      rewrite warning_suffixes_fields. split.
      * intros [[<- | [_ [Hk | (s & Hs & ->)]]] | (n & s & Hn & Hs & ->)].
        -- right. exists 0, "". rewrite Nat.add_0_r.
           split_and!; [simpl; lia | left | done].
        -- by left.
        -- right. exists 0, s. rewrite Nat.add_0_r.
           split_and!; [simpl; lia | by right | done].
        -- right. exists (S n), s. rewrite Nat.add_succ_r.
           split_and!; [simpl; lia | done | done].
      * intros [Hk | ([|n] & s & Hn & Hs & ->)].
        -- left. destruct (decide (warning_attr i "" = k)); eauto.
        -- left. rewrite Nat.add_0_r.
           apply elem_of_cons in Hs as [-> | Hs]; [by left |].
           destruct (decide (warning_attr i "" = warning_attr i s));
             [by left | right]. split; [done |]. right. by exists s.
        -- right. exists n, s. rewrite Nat.add_succ_r in *.
           split_and!; [simpl in Hn; lia | done | done].
    + assert (∀ f, f ∈ warning_fields →
        data !! warning_attr i f.1 = None) as Hnew.
      { intros f Hf. apply eq_None_not_Some. intros Hk.
        by apply (Hdata _ Hk i f.1); [| apply warning_fields_no_digit |]. }
      rewrite Hsize, map_size_insert_None by done.
      rewrite (copy_fields_size _ _ _ _ _ warning_fields_NoDup Hnew Hcopy).
      simpl. lia.
Qed.

Lemma initial_data_keys (a : DwdWeatherWarningsAPI) (n : nat) (k : string) :
  is_Some
    (<[ATTR_WARNING_COUNT := VInt (Z.of_nat n)]>
       (<[ATTR_LAST_UPDATE := last_update a]>
          (<[ATTR_REGION_ID := warncell_id a]>
             (<[ATTR_REGION_NAME := warncell_name a]>
                (∅ : gmap string val)))) !! k) ↔
  k ∈ fixed_attributes.
Proof.
  unfold fixed_attributes.
  rewrite !lookup_insert_is_Some, lookup_empty, !elem_of_cons, elem_of_nil.
  split.
  - intros [<- | [_ [<- | [_ [<- | [_ [<- | [_ []%is_Some_None]]]]]]]];
      auto.
  - intros [-> | [-> | [-> | [-> | []]]]].
    + do 3 (right; split; [done |]). by left.
    + do 2 (right; split; [done |]). by left.
    + right. split; [done |]. by left.
    + by left.
Qed.

(** X2: when the selected warnings are well formed, the keys of the
    returned dictionary are the four fixed attributes and, for each [i] from
    one to the number of warnings, [warning_i] and the ten [warning_i_*];
    there is no other key. *)
Theorem extra_state_attributes_key_set (self : DwdWeatherWarningsSensor)
    (σ : store) (a : DwdWeatherWarningsAPI) (ws : list (gmap string val)) :
  heap σ !! api self = Some (OApi a) →
  warning_dicts σ (searched_warnings self a) = Some ws →
  Forall well_formed ws →
  ∃ data σ',
    extra_state_attributes self σ = (inr data, σ') ∧
    ∀ k, is_Some (data !! k) ↔
      k ∈ fixed_attributes ∨
      ∃ i s, 1 ≤ i ≤ length ws ∧ s ∈ warning_suffixes ∧
        k = warning_attr i s.
Proof.
  intros Ha Hws Hwf.
  destruct (extra_state_attributes_well_formed self σ a ws)
    as (data & σ' & Hrun & _); [done.. |].
  exists data, σ'. split; [done |].
  rewrite (extra_state_attributes_run _ _ a) in Hrun by done.
  apply flatten_warnings_keys in Hrun as [Hkeys _].
  - intros k. rewrite Hkeys, initial_data_keys.
    rewrite (length_mapM _ _ _ Hws). split.
    + intros [? | (n & s & Hn & Hs & ->)]; [by left |].
      right. exists (1 + n), s. split_and!; [lia | lia | done | done].
    + intros [? | (i & s & [Hi1 Hi2] & Hs & ->)]; [by left |].
      right. exists (i - 1), s. split_and!; [lia | done |].
      f_equal. lia.
  - intros k Hk%initial_data_keys j s _ _.
    by apply fixed_attribute_not_warning.
Qed.

(** X3: when the selected warnings are well formed, the returned dictionary
    has four attributes and eleven more for each warning. *)
Theorem extra_state_attributes_size (self : DwdWeatherWarningsSensor)
    (σ : store) (a : DwdWeatherWarningsAPI) (ws : list (gmap string val)) :
  heap σ !! api self = Some (OApi a) →
  warning_dicts σ (searched_warnings self a) = Some ws →
  Forall well_formed ws →
  ∃ data σ',
    extra_state_attributes self σ = (inr data, σ') ∧
    size data = 4 + 11 * length ws.
Proof.
  intros Ha Hws Hwf.
  destruct (extra_state_attributes_well_formed self σ a ws)
    as (data & σ' & Hrun & _); [done.. |].
  exists data, σ'. split; [done |].
  rewrite (extra_state_attributes_run _ _ a) in Hrun by done.
  apply flatten_warnings_keys in Hrun as [_ ->].
  - rewrite (length_mapM _ _ _ Hws).
    rewrite !map_size_insert_None, map_size_empty by done. lia.
  - intros k Hk%initial_data_keys j s _ _.
    by apply fixed_attribute_not_warning.
Qed.

(** *** A warning without one of the items *)

Lemma copy_fields_missing (i : nat) (d : gmap string val)
    (pre post : list (string * string)) (suffix attr : string)
    (data : gmap string val) :
  Forall (λ f, is_Some (d !! f.2)) pre →
  d !! attr = None →
  copy_fields i d (pre ++ (suffix, attr) :: post) data = inl (KeyError attr).
Proof.
  revert data. induction pre as [|[suffix' attr'] pre IH]; simpl.
  - intros data _ ->. done.
  - intros data [[v Hv] Hpre]%Forall_cons Hattr. simpl in Hv. rewrite Hv.
    by apply IH.
Qed.

Lemma flatten_warnings_missing (good : list (gmap string val)) :
  ∀ (ls : list loc) (i : nat) (data : gmap string val) (σ : store)
    (bad : gmap string val) (rest : list (gmap string val)) (e : exn),
  Forall2 (λ l w, lookup_dict σ l = Some w) ls (good ++ bad :: rest) →
  Forall well_formed good →
  (∀ i data, copy_fields i bad warning_fields data = inl e) →
  (flatten_warnings i ls data σ).1 = inl e.
Proof.
  induction good as [|w good IH];
    intros ls i data σ bad rest e Hls Hgood Hbad; simpl in Hls;
    apply Forall2_cons_inv_r in Hls as (l & ls' & Hl & Hls & ->); simpl;
    rewrite bind_run, (flatten_warning_run _ _ _ _ _ Hl).
  - by rewrite Hbad.
  - apply Forall_cons in Hgood as [Hw Hgood].
    destruct (copy_fields_well_formed i w warning_fields data Hw)
      as [data1 ->].
    simpl. apply (IH _ _ _ _ bad rest); [|done..].
    eapply Forall2_impl; [exact Hls |].
    intros l' w' Hl'. eapply lookup_dict_preserved; [|exact Hl'].
    split; [|done]. apply insert_subseteq, not_elem_of_dom, is_fresh.
Qed.

Lemma extra_state_attributes_preserved (self : DwdWeatherWarningsSensor)
    (σ : store) :
  preserved σ (extra_state_attributes self σ).2.
Proof.
  unfold extra_state_attributes. rewrite bind_run.
  pose proof (get_api_state (api self) σ) as Hσ.
  destruct (get_api (api self) σ) as [[e|a] σ']; simpl in *; subst σ'.
  - apply preserved_refl.
  - apply flatten_warnings_preserved.
Qed.

(** X4: when the warnings before some warning are well formed and that
    warning lacks an item, the property raises [KeyError] for the first
    item, in the order of the loop body, that the warning lacks; no
    dictionary is returned, and the objects of the store are as before. *)
Theorem extra_state_attributes_missing_item (self : DwdWeatherWarningsSensor)
    (σ : store) (a : DwdWeatherWarningsAPI)
    (good rest : list (gmap string val)) (bad : gmap string val)
    (pre post : list (string * string)) (suffix attr : string) :
  heap σ !! api self = Some (OApi a) →
  warning_dicts σ (searched_warnings self a) = Some (good ++ bad :: rest) →
  Forall well_formed good →
  warning_fields = pre ++ (suffix, attr) :: post →
  Forall (λ f, is_Some (bad !! f.2)) pre →
  bad !! attr = None →
  ∃ σ',
    extra_state_attributes self σ = (inl (KeyError attr), σ') ∧
    preserved σ σ'.
Proof.
  intros Ha Hws%mapM_Some_1 Hgood Hfields Hpre Hattr.
  pose proof (extra_state_attributes_preserved self σ) as Hσ.
  rewrite (extra_state_attributes_run _ _ a) in * by done.
  assert (∀ i data,
    copy_fields i bad warning_fields data = inl (KeyError attr)) as Hbad.
  { intros i data. rewrite Hfields. by apply copy_fields_missing. }
  pose proof (flatten_warnings_missing good _ 1
    (<[ATTR_WARNING_COUNT :=
         VInt (Z.of_nat (length (searched_warnings self a)))]>
       (<[ATTR_LAST_UPDATE := last_update a]>
          (<[ATTR_REGION_ID := warncell_id a]>
             (<[ATTR_REGION_NAME := warncell_name a]> ∅))))
    σ bad rest (KeyError attr) Hws Hgood Hbad) as Hrun.
  destruct (flatten_warnings _ _ _ _) as [r σ'].
  exists σ'. simpl in Hσ, Hrun. by rewrite Hrun.
Qed.

(** *** The copies *)

Lemma flatten_warnings_other (ls : list loc) :
  ∀ (i : nat) (data data' : gmap string val) (σ σ' : store) (k : string),
  flatten_warnings i ls data σ = (inr data', σ') →
  (∀ j s, i ≤ j → no_digit_head s = true → k ≠ warning_attr j s) →
  data' !! k = data !! k.
Proof.
  induction ls as [|l ls IH]; intros i data data' σ σ' k Hrun Hk.
  - simpl in Hrun. by injection Hrun as <- <-.
  - apply flatten_warnings_cons_inv in Hrun
      as (d & data1 & Hl & Hcopy & Hrun).
    rewrite (IH _ _ _ _ _ _ Hrun) by (intros j s Hj; apply Hk; lia).
    rewrite lookup_insert_ne by (by apply not_eq_sym, Hk).
    apply (copy_fields_other _ _ _ _ _ _ Hcopy).
    intros f Hf. apply Hk; [done |]. by apply warning_fields_no_digit.
Qed.

Lemma flatten_warnings_copies (ls : list loc) :
  ∀ (i : nat) (data data' : gmap string val) (σ σ' : store),
  flatten_warnings i ls data σ = (inr data', σ') →
  ∃ copies : list loc,
    length copies = length ls ∧
    NoDup copies ∧
    (∀ l', l' ∈ copies → heap σ !! l' = None) ∧
    (∀ n l', copies !! n = Some l' →
       data' !! warning_attr (i + n) "" = Some (VRef l')).
Proof.
  induction ls as [|l ls IH]; intros i data data' σ σ' Hrun.
  - simpl in Hrun. injection Hrun as <- <-. exists [].
    split_and!; [done | apply NoDup_nil_2 | |].
    + intros l' Hl'. by apply elem_of_nil in Hl'.
    + intros n l' Hn. by rewrite lookup_nil in Hn.
  - apply flatten_warnings_cons_inv in Hrun
      as (d & data1 & Hl & Hcopy & Hrun).
    set (l1 := fresh (dom (heap σ))) in *.
    assert (heap σ !! l1 = None) as Hfresh.
    { apply not_elem_of_dom, is_fresh. }
    destruct (IH _ _ _ _ _ Hrun)
      as (copies & Hlen & Hnodup & Hnew & Hnth).
    simpl in Hnew.
    exists (l1 :: copies). split_and!.
    + simpl. by rewrite Hlen.
    + apply NoDup_cons. split; [|done]. intros Hin%Hnew.
      by rewrite lookup_insert_eq in Hin.
    + intros l' [-> | Hin%Hnew]%elem_of_cons; [done |].
      by apply lookup_insert_None in Hin as [? _].
    + intros [|n] l' Hn; simpl in Hn.
      * injection Hn as <-. rewrite Nat.add_0_r.
        rewrite (flatten_warnings_other _ _ _ _ _ _ _ Hrun).
        -- apply lookup_insert_eq.
        -- intros j s Hj Hs Heq%warning_attr_inj; [lia | done..].
      * rewrite Nat.add_succ_r. by apply Hnth.
Qed.

(** X5: when the selected warnings are well formed, the references stored
    under [warning_1], [warning_2], ... are pairwise different, none of them
    was in the store before, and each refers to a dictionary with the items
    of its warning: every warning gets a copy of its own, also when the list
    holds the same warning twice. *)
Theorem extra_state_attributes_copies_distinct
    (self : DwdWeatherWarningsSensor) (σ : store)
    (a : DwdWeatherWarningsAPI) (ws : list (gmap string val)) :
  heap σ !! api self = Some (OApi a) →
  warning_dicts σ (searched_warnings self a) = Some ws →
  Forall well_formed ws →
  ∃ data σ' (copies : list loc),
    extra_state_attributes self σ = (inr data, σ') ∧
    length copies = length ws ∧
    NoDup copies ∧
    ∀ i l', copies !! i = Some l' →
      heap σ !! l' = None ∧
      data !! warning_attr (S i) "" = Some (VRef l') ∧
      ∃ w, ws !! i = Some w ∧ lookup_dict σ' l' = Some w.
Proof.
  intros Ha Hws Hwf.
  destruct (extra_state_attributes_well_formed self σ a ws)
    as (data & σ' & Hrun & _ & Hitems); [done.. |].
  pose proof Hrun as Hloop.
  rewrite (extra_state_attributes_run _ _ a) in Hloop by done.
  apply flatten_warnings_copies in Hloop
    as (copies & Hlen & Hnodup & Hnew & Hnth).
  rewrite (length_mapM _ _ _ Hws) in Hlen.
  exists data, σ', copies. split_and!; [done.. |].
  intros i l' Hi. split_and!.
  - apply Hnew. by eapply list_elem_of_lookup_2.
  - by apply Hnth.
  - destruct (lookup_lt_is_Some_2 ws i) as [w Hw].
    { rewrite <- Hlen. by eapply lookup_lt_Some. }
    exists w. split; [done |].
    destruct (Hitems i w Hw) as [_ (l'' & Hl'' & _ & Hcopy)].
    apply Hnth in Hi. simpl in Hi. rewrite Hi in Hl''.
    by injection Hl'' as ->.
Qed.

(** X6: the dictionary under [warning_i] is private to the caller: an item
    assignment on it succeeds, is visible in that dictionary, and leaves
    every object that was in the store before the evaluation unchanged, the
    warning it was copied from included. *)
Theorem returned_copy_is_private (self : DwdWeatherWarningsSensor)
    (σ : store) (a : DwdWeatherWarningsAPI) (ws : list (gmap string val)) :
  heap σ !! api self = Some (OApi a) →
  warning_dicts σ (searched_warnings self a) = Some ws →
  Forall well_formed ws →
  ∃ data σ',
    extra_state_attributes self σ = (inr data, σ') ∧
    ∀ i w, ws !! i = Some w →
      ∃ l', data !! warning_attr (S i) "" = Some (VRef l') ∧
        ∀ k v, ∃ σ'',
          dict_setitem l' k v σ' = (inr (), σ'') ∧
          lookup_dict σ'' l' = Some (<[k := v]> w) ∧
          preserved σ σ''.
Proof.
  intros Ha Hws Hwf.
  pose proof (extra_state_attributes_preserved self σ) as [Hheap Hcalls].
  destruct (extra_state_attributes_well_formed self σ a ws)
    as (data & σ' & Hrun & _ & Hnth); [done.. |].
  rewrite Hrun in Hheap, Hcalls. simpl in Hheap, Hcalls.
  exists data, σ'. split; [done |]. intros i w Hi.
  destruct (Hnth i w Hi) as [_ (l' & Hl' & Hnew & Hcopy%lookup_dict_Some)].
  exists l'. split; [done |]. intros k v. eexists.
  unfold dict_setitem. rewrite Hcopy. split_and!; [done | |].
  - apply lookup_dict_Some. simpl. apply lookup_insert_eq.
  - split; [|done]. simpl. by apply insert_subseteq_r.
Qed.

(** *** Evaluations one after the other *)

(** X7: evaluating the attributes of any sensor does not change what a
    sensor reports afterwards: in the store left by the evaluation,
    [native_value] and [available] give the same results as before, and
    [extra_state_attributes] raises the same exception or returns an equal
    dictionary (with new copies under [warning_i]). *)
Theorem evaluation_does_not_interfere (self other : DwdWeatherWarningsSensor)
    (σ : store) (a : DwdWeatherWarningsAPI) (ws : list (gmap string val)) :
  heap σ !! api self = Some (OApi a) →
  warning_dicts σ (searched_warnings self a) = Some ws →
  (native_value self (extra_state_attributes other σ).2).1 =
    (native_value self σ).1 ∧
  (available self (extra_state_attributes other σ).2).1 =
    (available self σ).1 ∧
  outcome_equiv (extra_state_attributes self σ)
    (extra_state_attributes self (extra_state_attributes other σ).2).
Proof.
  intros Ha Hws%mapM_Some_1.
  pose proof (extra_state_attributes_preserved other σ) as Hσ.
  destruct (extra_state_attributes other σ) as [r σ1]. simpl in *.
  pose proof (preserved_lookup _ _ _ _ Hσ Ha) as Ha1.
  split_and!.
  - unfold native_value.
    rewrite !bind_run, (get_api_run _ a σ1), (get_api_run _ a σ) by done.
    by case_decide.
  - unfold available.
    by rewrite !bind_run, (get_api_run _ a σ1), (get_api_run _ a σ) by done.
  - rewrite (extra_state_attributes_run _ σ a) by done.
    rewrite (extra_state_attributes_run _ σ1 a) by done.
    apply (flatten_warnings_equiv ws); [done | | apply data_equiv_refl].
    eapply Forall2_impl; [exact Hws |].
    intros l w Hl. by eapply lookup_dict_preserved.
Qed.

(** *** Setting up an entry *)

(** X8: when [hass.data] has no coordinator for the entry, the set-up
    raises [KeyError] for the key that is missing, the domain or else the
    entry id; the entity callback is not called and the store is as
    before. *)
Theorem async_setup_entry_missing_coordinator (hass : HomeAssistant)
    (entry : ConfigEntry) (async_add_entities : AddEntitiesCallback)
    (σ : store) :
  registered_coordinator DOMAIN hass entry = None →
  async_setup_entry hass entry async_add_entities σ =
    (inl (KeyError (match data hass !! DOMAIN with
                    | Some _ => entry_id entry
                    | None => DOMAIN
                    end)), σ).
Proof.
  unfold registered_coordinator, async_setup_entry. intros Hnone.
  rewrite bind_run. unfold getitem at 1.
  destruct (data hass !! DOMAIN) as [by_entry|]; [|done].
  simpl in Hnone. rewrite ret_run, bind_run. unfold getitem.
  by rewrite Hnone.
Qed.

Lemma async_setup_entry_sensors (hass : HomeAssistant) (entry : ConfigEntry)
    (async_add_entities : AddEntitiesCallback) (σ : store)
    (by_entry : gmap string loc) (c : loc)
    (co : DwdWeatherWarningsCoordinator) :
  data hass !! DOMAIN = Some by_entry →
  by_entry !! entry_id entry = Some c →
  heap σ !! c = Some (OCoordinator co) →
  ∃ s1 s2,
    async_setup_entry hass entry async_add_entities σ =
      async_add_entities [s1; s2] true σ ∧
    DwdWeatherWarningsSensor_init c entry
      {| key := CURRENT_WARNING_SENSOR; name := "Current Warning Level";
         icon := "mdi:close-octagon-outline" |} σ = (inr s1, σ) ∧
    DwdWeatherWarningsSensor_init c entry
      {| key := ADVANCE_WARNING_SENSOR; name := "Advance Warning Level";
         icon := "mdi:close-octagon-outline" |} σ = (inr s2, σ).
Proof.
  intros Hdom Hentry Hc. unfold async_setup_entry.
  rewrite bind_run, (getitem_run _ _ by_entry) by done.
  rewrite bind_run, (getitem_run _ _ c) by done.
  destruct (sensor_init_run c co entry
    {| key := CURRENT_WARNING_SENSOR; name := "Current Warning Level";
       icon := "mdi:close-octagon-outline" |} σ Hc) as (s1 & Hrun1 & _).
  destruct (sensor_init_run c co entry
    {| key := ADVANCE_WARNING_SENSOR; name := "Advance Warning Level";
       icon := "mdi:close-octagon-outline" |} σ Hc) as (s2 & Hrun2 & _).
  exists s1, s2. split_and!; [|done..].
  rewrite bind_run. unfold SENSOR_TYPES, mapM.
  rewrite bind_run, Hrun1, !bind_run, Hrun2, bind_run. by rewrite !ret_run.
Qed.

Lemma sensor_init_inv (c : loc) (co : DwdWeatherWarningsCoordinator)
    (entry : ConfigEntry) (description : SensorEntityDescription)
    (σ σ' : store) (s : DwdWeatherWarningsSensor) :
  heap σ !! c = Some (OCoordinator co) →
  DwdWeatherWarningsSensor_init c entry description σ = (inr s, σ') →
  s = {|
    coordinator := c;
    entity_description := description;
    _attr_name :=
      DEFAULT_NAME +:+ " " +:+ title entry +:+ " " +:+ name description;
    _attr_unique_id :=
      format_opt (unique_id entry) +:+ "-" +:+ key description;
    _attr_device_info := {|
      identifiers := [(DOMAIN, entry_id entry)];
      device_name := DEFAULT_NAME +:+ " " +:+ title entry |};
    api := coordinator_api co |}.
Proof.
  intros Hc. unfold DwdWeatherWarningsSensor_init.
  rewrite bind_run, (get_coordinator_run _ co), ret_run by done.
  by intros [= <- _].
Qed.




(** X10: the two sensors of an entry belong to one device, identified by
    the pair of the domain and the entry id and named after the entry; the
    name of each sensor is the name of the device followed by the name of
    its description, so the two names differ. *)
Theorem async_setup_entry_sensors_share_device (hass : HomeAssistant)
    (entry : ConfigEntry) (async_add_entities : AddEntitiesCallback)
    (σ : store) (by_entry : gmap string loc) (c : loc)
    (co : DwdWeatherWarningsCoordinator) :
  data hass !! DOMAIN = Some by_entry →
  by_entry !! entry_id entry = Some c →
  heap σ !! c = Some (OCoordinator co) →
  ∃ s1 s2,
    async_setup_entry hass entry async_add_entities σ =
      async_add_entities [s1; s2] true σ ∧
    _attr_device_info s1 = _attr_device_info s2 ∧
    identifiers (_attr_device_info s1) = [(DOMAIN, entry_id entry)] ∧
    device_name (_attr_device_info s1) =
      DEFAULT_NAME +:+ " " +:+ title entry ∧
    _attr_name s1 =
      device_name (_attr_device_info s1) +:+ " Current Warning Level" ∧
    _attr_name s2 =
      device_name (_attr_device_info s2) +:+ " Advance Warning Level" ∧
    _attr_name s1 ≠ _attr_name s2.
Proof.
  intros Hdom Hentry Hc.
  destruct (async_setup_entry_sensors hass entry async_add_entities σ
    by_entry c co) as (s1 & s2 & Hrun & Hs1 & Hs2); [done.. |].
  apply (sensor_init_inv _ co) in Hs1; [|done].
  apply (sensor_init_inv _ co) in Hs2; [|done].
  exists s1, s2. subst s1 s2. simpl.
  split_and!; [done | done | done | done | | |].
  - by rewrite !string_app_assoc.
  - by rewrite !string_app_assoc.
  - intros Heq. do 3 apply (inj (String.app _)) in Heq. discriminate.
Qed.

(** X11: the unique id tells the sensors of the platform apart: if two
    sensors built for descriptions of [SENSOR_TYPES] have the same unique
    id, they have the same description, and the unique ids of their entries
    are formatted alike (equal when both entries have one). *)
Theorem sensor_unique_id_inj (c1 c2 : loc) (e1 e2 : ConfigEntry)
    (d1 d2 : SensorEntityDescription) (σ1 σ2 σ1' σ2' : store)
    (s1 s2 : DwdWeatherWarningsSensor) :
  d1 ∈ SENSOR_TYPES → d2 ∈ SENSOR_TYPES →
  DwdWeatherWarningsSensor_init c1 e1 d1 σ1 = (inr s1, σ1') →
  DwdWeatherWarningsSensor_init c2 e2 d2 σ2 = (inr s2, σ2') →
  _attr_unique_id s1 = _attr_unique_id s2 →
  d1 = d2 ∧
  format_opt (unique_id e1) = format_opt (unique_id e2) ∧
  ∀ u1 u2, unique_id e1 = Some u1 → unique_id e2 = Some u2 → u1 = u2.
Proof.
  intros Hd1 Hd2 Hs1 Hs2.
  unfold DwdWeatherWarningsSensor_init in Hs1, Hs2.
  rewrite bind_run in Hs1, Hs2.
  destruct (get_coordinator c1 σ1) as [[?|co1] ?]; [done |].
  destruct (get_coordinator c2 σ2) as [[?|co2] ?]; [done |].
  rewrite ret_run in Hs1, Hs2.
  injection Hs1 as <- _. injection Hs2 as <- _. simpl. intros Heq.
  assert (format_opt (unique_id e1) = format_opt (unique_id e2) ∧
          key d1 = key d2) as [Hu Hk].
  { apply string_app_inv_length in Heq as [? Heq]; [by injection Heq |].
    unfold SENSOR_TYPES in Hd1, Hd2.
    repeat (apply elem_of_cons in Hd1 as [->|Hd1]);
      repeat (apply elem_of_cons in Hd2 as [->|Hd2]);
      try done; by apply elem_of_nil in Hd1 || by apply elem_of_nil in Hd2. }
  split_and!; [| done |].
  - unfold SENSOR_TYPES in Hd1, Hd2.
    repeat (apply elem_of_cons in Hd1 as [->|Hd1]);
      repeat (apply elem_of_cons in Hd2 as [->|Hd2]);
      try done; by apply elem_of_nil in Hd1 || by apply elem_of_nil in Hd2.
  - intros u1 u2 Hu1 Hu2. by rewrite Hu1, Hu2 in Hu.
Qed.

(** *** Importing several YAML configurations *)

(** X12: the platform set-up keeps no record of earlier runs: run for a
    list of configurations one after the other, it creates the issue and
    schedules an import flow once per configuration, in order, each flow
    with its own configuration, and changes no object. *)
Theorem async_setup_platform_sequence (hass : HomeAssistant)
    (configs : list ConfigType) (add_entities : AddEntitiesCallback)
    (discovery_info : option DiscoveryInfoType) (σ : store) :
  mapM (λ config,
          async_setup_platform hass config add_entities discovery_info)
    configs σ =
  (inr (replicate (length configs) ()),
   {| heap := heap σ;
      calls := calls σ ++ (configs ≫= platform_calls) |}).
Proof.
  revert σ. induction configs as [|config configs IH]; intros σ.
  - simpl. rewrite ret_run, app_nil_r. by destruct σ.
  - unfold mapM. fold (mapM (M := M) (A := ConfigType) (B := unit)).
    rewrite bind_run. unfold async_setup_platform at 1.
    rewrite bind_run. unfold record_call at 1 2. simpl.
    rewrite bind_run, IH, ret_run. simpl.
    by rewrite <- !app_assoc.
Qed.

End more_properties.

(** ** The theorems on the sample installation *)

#[local] Existing Instance dwd_constants.

Example advance_sensor_second_name :
  returned_attribute (extra_state_attributes advance_sensor sample_store)
    "warning_2_name" = Some (VStr "FROST").
Proof. vm_compute. reflexivity. Qed.

Example advance_sensor_count :
  returned_attribute (extra_state_attributes advance_sensor sample_store)
    "warning_count" = Some (VInt 2).
Proof. vm_compute. reflexivity. Qed.

Example advance_sensor_no_third_warning :
  returned_attribute (extra_state_attributes advance_sensor sample_store)
    "warning_3_name" = None.
Proof. vm_compute. reflexivity. Qed.

Example current_sensor_copy_is_new :
  returned_attribute (extra_state_attributes current_sensor sample_store)
    "warning_1" = Some (VRef 6%positive) ∧
  heap sample_store !! 6%positive = None ∧
  heap (extra_state_attributes current_sensor sample_store).2 !! 6%positive =
    Some (ODict (sample_warning "WINDBOEEN" 51 1 100 200)).
Proof. split_and!; vm_compute; reflexivity. Qed.

Example current_sensor_level :
  native_value current_sensor sample_store = (inr (VInt 1), sample_store).
Proof. reflexivity. Qed.

Example advance_sensor_level :
  native_value advance_sensor sample_store = (inr (VInt 2), sample_store).
Proof. reflexivity. Qed.

(** Outside the well-formed warnings the first missing item raises, and the
    store is left as it was. *)
Example truncated_warning_raises :
  extra_state_attributes current_sensor truncated_store =
    (inl (KeyError "event"), truncated_store).
Proof. reflexivity. Qed.

Lemma native_value_selects_level_witness :
  heap sample_store !! api current_sensor = Some (OApi sample_api) ∧
  ((key (entity_description current_sensor) = CURRENT_WARNING_SENSOR →
      native_value current_sensor sample_store =
        (inr (current_warning_level sample_api), sample_store)) ∧
   (key (entity_description current_sensor) ≠ CURRENT_WARNING_SENSOR →
      native_value current_sensor sample_store =
        (inr (expected_warning_level sample_api), sample_store))).
Proof.
  split; [reflexivity |].
  apply (native_value_selects_level current_sensor sample_store sample_api).
  reflexivity.
Defined.

Lemma available_is_data_valid_witness :
  heap sample_store !! api advance_sensor = Some (OApi sample_api) ∧
  available advance_sensor sample_store = (inr true, sample_store).
Proof.
  split; [reflexivity |].
  apply (available_is_data_valid advance_sensor sample_store sample_api).
  reflexivity.
Defined.

Lemma async_setup_entry_adds_two_sensors_witness :
  data sample_hass !! DOMAIN = Some {[ "0123456789abcdef" := 1%positive ]} ∧
  ({[ "0123456789abcdef" := 1%positive ]} : gmap string loc)
    !! entry_id sample_entry = Some 1%positive ∧
  heap sample_store !! 1%positive =
    Some (OCoordinator {| coordinator_api := 2%positive |}) ∧
  ∃ s1 s2,
    async_setup_entry sample_hass sample_entry ignore_entities sample_store =
      ignore_entities [s1; s2] true sample_store ∧
    entity_description <$> [s1; s2] = SENSOR_TYPES ∧
    key (entity_description s1) = "current_warning_level" ∧
    key (entity_description s2) = "advance_warning_level" ∧
    _attr_unique_id s1 =
      format_opt (unique_id sample_entry) +:+ "-" +:+ "current_warning_level" ∧
    _attr_unique_id s2 =
      format_opt (unique_id sample_entry) +:+ "-" +:+ "advance_warning_level" ∧
    _attr_unique_id s1 ≠ _attr_unique_id s2.
Proof.
  split_and!; [reflexivity.. |].
  apply (async_setup_entry_adds_two_sensors sample_hass sample_entry
    ignore_entities sample_store {[ "0123456789abcdef" := 1%positive ]}
    1%positive {| coordinator_api := 2%positive |}); reflexivity.
Defined.

Lemma extra_state_attributes_flattens_witness :
  heap sample_store !! api advance_sensor = Some (OApi sample_api) ∧
  warning_dicts sample_store
    (if decide (key (entity_description advance_sensor) =
                CURRENT_WARNING_SENSOR)
     then current_warnings sample_api
     else expected_warnings sample_api) = Some sample_expected ∧
  Forall well_formed sample_expected ∧
  ∃ data σ',
    extra_state_attributes advance_sensor sample_store = (inr data, σ') ∧
    ∀ i w, sample_expected !! i = Some w →
      flattened data (S i) w "_name" API_ATTR_WARNING_NAME ∧
      flattened data (S i) w "_type" API_ATTR_WARNING_TYPE ∧
      flattened data (S i) w "_level" API_ATTR_WARNING_LEVEL ∧
      flattened data (S i) w "_headline" API_ATTR_WARNING_HEADLINE ∧
      flattened data (S i) w "_description" API_ATTR_WARNING_DESCRIPTION ∧
      flattened data (S i) w "_instruction" API_ATTR_WARNING_INSTRUCTION ∧
      flattened data (S i) w "_start" API_ATTR_WARNING_START ∧
      flattened data (S i) w "_end" API_ATTR_WARNING_END ∧
      flattened data (S i) w "_parameters" API_ATTR_WARNING_PARAMETERS ∧
      flattened data (S i) w "_color" API_ATTR_WARNING_COLOR.
Proof.
  split_and!;
    [reflexivity | reflexivity | sample_well_formed |].
  apply (extra_state_attributes_flattens advance_sensor sample_store
    sample_api sample_expected);
    [reflexivity | reflexivity | sample_well_formed].
Defined.

Lemma extra_state_attributes_fixed_keys_witness :
  heap sample_store !! api current_sensor = Some (OApi sample_api) ∧
  warning_dicts sample_store (searched_warnings current_sensor sample_api) =
    Some sample_current ∧
  Forall well_formed sample_current ∧
  ∃ data σ',
    extra_state_attributes current_sensor sample_store = (inr data, σ') ∧
    data !! "region_name" = Some (VStr "Stadt Hamburg") ∧
    data !! "region_id" = Some (VInt 102000000) ∧
    data !! "last_update" = Some (VDateTime 1700000000) ∧
    data !! "warning_count" = Some (VInt 1).
Proof.
  split_and!;
    [reflexivity | reflexivity | sample_well_formed |].
  apply (extra_state_attributes_fixed_keys current_sensor sample_store
    sample_api sample_current);
    [reflexivity | reflexivity | sample_well_formed].
Defined.

Lemma extra_state_attributes_copies_witness :
  heap sample_store !! api advance_sensor = Some (OApi sample_api) ∧
  warning_dicts sample_store (searched_warnings advance_sensor sample_api) =
    Some sample_expected ∧
  Forall well_formed sample_expected ∧
  ∃ data σ',
    extra_state_attributes advance_sensor sample_store = (inr data, σ') ∧
    ∀ i w, sample_expected !! i = Some w →
      ∃ l', data !! warning_attr (S i) "" = Some (VRef l') ∧
        heap sample_store !! l' = None ∧
        heap σ' !! l' = Some (ODict w).
Proof.
  split_and!;
    [reflexivity | reflexivity | sample_well_formed |].
  apply (extra_state_attributes_copies advance_sensor sample_store
    sample_api sample_expected);
    [reflexivity | reflexivity | sample_well_formed].
Defined.

(** Equal references do not make equal states: the items behind them
    count. *)
Example changed_parameters_change_state :
  ¬ same_api_state nested_store nested_api changed_store changed_api.
Proof.
  intros (_ & _ & _ & _ & _ & _ & Hcws & _).
  apply Forall2_cons_1 in Hcws as [Hw _].
  apply val_sim_dict_inv in Hw as (d1 & d2 & Hd1 & Hd2 & Hd).
  vm_compute in Hd1, Hd2. injection Hd1 as <-. injection Hd2 as <-.
  specialize (Hd "parameters"). vm_compute in Hd.
  inversion Hd as [x y Hxy|]; subst.
  apply val_sim_dict_inv in Hxy as (p1 & p2 & Hp1 & Hp2 & Hp).
  vm_compute in Hp1, Hp2. injection Hp1 as <-. injection Hp2 as <-.
  specialize (Hp "Boeen"). vm_compute in Hp.
  inversion Hp as [x y Hxy|]. inversion Hxy.
Qed.

Lemma sensor_properties_deterministic_witness :
  key (entity_description current_sensor) =
    key (entity_description other_sensor) ∧
  heap nested_store !! api current_sensor = Some (OApi nested_api) ∧
  heap nested_other_store !! api other_sensor =
    Some (OApi nested_other_api) ∧
  same_api_state nested_store nested_api nested_other_store
    nested_other_api ∧
  outcome_sim (val_sim nested_store nested_other_store)
    (native_value current_sensor nested_store).1
    (native_value other_sensor nested_other_store).1 ∧
  (available current_sensor nested_store).1 =
    (available other_sensor nested_other_store).1 ∧
  outcome_sim
    (dict_sim (extra_state_attributes current_sensor nested_store).2
       (extra_state_attributes other_sensor nested_other_store).2)
    (extra_state_attributes current_sensor nested_store).1
    (extra_state_attributes other_sensor nested_other_store).1.
Proof.
  assert (same_api_state nested_store nested_api nested_other_store
    nested_other_api) as Hstate.
  { unfold same_api_state.
    split; [reflexivity |].
    do 5 (split; [by apply val_sim_value |]).
    split; [|constructor].
    constructor; [|constructor].
    apply (val_sim_dict _ _ _ _
      (<["parameters" := VRef 9%positive]>
         (sample_warning "WINDBOEEN" 51 1 100 200))
      (<["parameters" := VRef 11%positive]>
         (sample_warning "WINDBOEEN" 51 1 100 200)));
      [reflexivity | reflexivity |].
    apply dict_sim_insert.
    - apply (val_sim_dict _ _ _ _ wind_parameters wind_parameters);
        [reflexivity | reflexivity |].
      unfold wind_parameters.
      repeat (apply dict_sim_insert; [by apply val_sim_value |]).
      apply dict_sim_empty.
    - unfold sample_warning.
      repeat (apply dict_sim_insert; [by apply val_sim_value |]).
      apply dict_sim_empty. }
  do 3 (split; [reflexivity |]). split; [exact Hstate |].
  apply (sensor_properties_deterministic current_sensor other_sensor
    nested_store nested_other_store nested_api nested_other_api);
    [reflexivity | reflexivity | reflexivity | exact Hstate].
Defined.

(** ** The further properties on the sample installation *)

Example unique_id_none_collides :
  ∀ s1 s2,
    DwdWeatherWarningsSensor_init 1%positive unknown_entry
      {| key := CURRENT_WARNING_SENSOR; name := "Current Warning Level";
         icon := "mdi:close-octagon-outline" |} sample_store
      = (inr s1, sample_store) →
    DwdWeatherWarningsSensor_init 1%positive
      {| entry_id := "0000000000000000"; title := "Bremen";
         unique_id := Some "None" |}
      {| key := CURRENT_WARNING_SENSOR; name := "Current Warning Level";
         icon := "mdi:close-octagon-outline" |} sample_store
      = (inr s2, sample_store) →
    _attr_unique_id s1 = _attr_unique_id s2.
Proof. by intros s1 s2 [= <-] [= <-]. Qed.

Lemma warning_attribute_names_distinct_witness :
  "_name" ∈ warning_suffixes ∧ "" ∈ warning_suffixes ∧
  (1 ≠ 11 ∨ "_name" ≠ "") ∧
  warning_attr 1 "_name" ≠ warning_attr 11 "".
Proof.
  split_and!; [sample_elem_of | sample_elem_of | by left |].
  apply (warning_attribute_names_distinct 1 11 "_name" "");
    [sample_elem_of | sample_elem_of | by left].
Defined.

Lemma extra_state_attributes_key_set_witness :
  heap sample_store !! api advance_sensor = Some (OApi sample_api) ∧
  warning_dicts sample_store (searched_warnings advance_sensor sample_api) =
    Some sample_expected ∧
  Forall well_formed sample_expected ∧
  ∃ data σ',
    extra_state_attributes advance_sensor sample_store = (inr data, σ') ∧
    ∀ k, is_Some (data !! k) ↔
      k ∈ fixed_attributes ∨
      ∃ i s, 1 ≤ i ≤ length sample_expected ∧ s ∈ warning_suffixes ∧
        k = warning_attr i s.
Proof.
  split_and!; [reflexivity | reflexivity | sample_well_formed |].
  apply (extra_state_attributes_key_set advance_sensor sample_store
    sample_api sample_expected);
    [reflexivity | reflexivity | sample_well_formed].
Defined.

Lemma extra_state_attributes_size_witness :
  heap sample_store !! api advance_sensor = Some (OApi sample_api) ∧
  warning_dicts sample_store (searched_warnings advance_sensor sample_api) =
    Some sample_expected ∧
  Forall well_formed sample_expected ∧
  ∃ data σ',
    extra_state_attributes advance_sensor sample_store = (inr data, σ') ∧
    size data = 4 + 11 * 2.
Proof.
  split_and!; [reflexivity | reflexivity | sample_well_formed |].
  apply (extra_state_attributes_size advance_sensor sample_store
    sample_api sample_expected);
    [reflexivity | reflexivity | sample_well_formed].
Defined.

Lemma extra_state_attributes_missing_item_witness :
  heap headless_store !! api advance_sensor = Some (OApi sample_api) ∧
  warning_dicts headless_store
    (searched_warnings advance_sensor sample_api) =
    Some ([sample_warning "STURMBOEEN" 52 2 300 400] ++
          delete "headline" (sample_warning "FROST" 22 1 500 600) :: []) ∧
  Forall well_formed [sample_warning "STURMBOEEN" 52 2 300 400] ∧
  warning_fields =
    take 3 warning_fields ++ ("_headline", "headline")
      :: drop 4 warning_fields ∧
  Forall (λ f : string * string,
            is_Some (delete "headline"
                       (sample_warning "FROST" 22 1 500 600) !! f.2))
    (take 3 warning_fields) ∧
  delete "headline" (sample_warning "FROST" 22 1 500 600) !! "headline"
    = None ∧
  ∃ σ',
    extra_state_attributes advance_sensor headless_store =
      (inl (KeyError "headline"), σ') ∧
    preserved headless_store σ'.
Proof.
  split_and!;
    [ reflexivity | reflexivity | sample_well_formed | reflexivity
    | sample_well_formed | reflexivity |].
  apply (extra_state_attributes_missing_item advance_sensor headless_store
    sample_api [sample_warning "STURMBOEEN" 52 2 300 400] []
    (delete "headline" (sample_warning "FROST" 22 1 500 600))
    (take 3 warning_fields) (drop 4 warning_fields) "_headline" "headline");
    [ reflexivity | reflexivity | sample_well_formed | reflexivity
    | sample_well_formed | reflexivity ].
Defined.

Lemma extra_state_attributes_copies_distinct_witness :
  heap sample_store !! api advance_sensor = Some (OApi sample_api) ∧
  warning_dicts sample_store (searched_warnings advance_sensor sample_api) =
    Some sample_expected ∧
  Forall well_formed sample_expected ∧
  ∃ data σ' (copies : list loc),
    extra_state_attributes advance_sensor sample_store = (inr data, σ') ∧
    length copies = length sample_expected ∧
    NoDup copies ∧
    ∀ i l', copies !! i = Some l' →
      heap sample_store !! l' = None ∧
      data !! warning_attr (S i) "" = Some (VRef l') ∧
      ∃ w, sample_expected !! i = Some w ∧ lookup_dict σ' l' = Some w.
Proof.
  split_and!; [reflexivity | reflexivity | sample_well_formed |].
  apply (extra_state_attributes_copies_distinct advance_sensor sample_store
    sample_api sample_expected);
    [reflexivity | reflexivity | sample_well_formed].
Defined.

Lemma returned_copy_is_private_witness :
  heap sample_store !! api current_sensor = Some (OApi sample_api) ∧
  warning_dicts sample_store (searched_warnings current_sensor sample_api) =
    Some sample_current ∧
  Forall well_formed sample_current ∧
  ∃ data σ',
    extra_state_attributes current_sensor sample_store = (inr data, σ') ∧
    ∀ i w, sample_current !! i = Some w →
      ∃ l', data !! warning_attr (S i) "" = Some (VRef l') ∧
        ∀ k v, ∃ σ'',
          dict_setitem l' k v σ' = (inr (), σ'') ∧
          lookup_dict σ'' l' = Some (<[k := v]> w) ∧
          preserved sample_store σ''.
Proof.
  split_and!; [reflexivity | reflexivity | sample_well_formed |].
  apply (returned_copy_is_private current_sensor sample_store
    sample_api sample_current);
    [reflexivity | reflexivity | sample_well_formed].
Defined.

Lemma evaluation_does_not_interfere_witness :
  heap sample_store !! api advance_sensor = Some (OApi sample_api) ∧
  warning_dicts sample_store (searched_warnings advance_sensor sample_api) =
    Some sample_expected ∧
  ((native_value advance_sensor
      (extra_state_attributes current_sensor sample_store).2).1 =
     (native_value advance_sensor sample_store).1 ∧
   (available advance_sensor
      (extra_state_attributes current_sensor sample_store).2).1 =
     (available advance_sensor sample_store).1 ∧
   outcome_equiv (extra_state_attributes advance_sensor sample_store)
     (extra_state_attributes advance_sensor
        (extra_state_attributes current_sensor sample_store).2)).
Proof.
  split; [reflexivity |]. split; [reflexivity |].
  apply (evaluation_does_not_interfere advance_sensor current_sensor
    sample_store sample_api sample_expected); reflexivity.
Defined.

Lemma async_setup_entry_missing_coordinator_witness :
  registered_coordinator DOMAIN sample_hass unknown_entry = None ∧
  async_setup_entry sample_hass unknown_entry ignore_entities sample_store =
    (inl (KeyError (match data sample_hass !! DOMAIN with
                    | Some _ => entry_id unknown_entry
                    | None => DOMAIN
                    end)), sample_store).
Proof.
  split; [reflexivity |].
  apply (async_setup_entry_missing_coordinator sample_hass unknown_entry
    ignore_entities sample_store).
  reflexivity.
Defined.


Lemma async_setup_entry_sensors_share_device_witness :
  data sample_hass !! DOMAIN = Some {[ "0123456789abcdef" := 1%positive ]} ∧
  ({[ "0123456789abcdef" := 1%positive ]} : gmap string loc)
    !! entry_id sample_entry = Some 1%positive ∧
  heap sample_store !! 1%positive =
    Some (OCoordinator {| coordinator_api := 2%positive |}) ∧
  ∃ s1 s2,
    async_setup_entry sample_hass sample_entry ignore_entities sample_store =
      ignore_entities [s1; s2] true sample_store ∧
    _attr_device_info s1 = _attr_device_info s2 ∧
    identifiers (_attr_device_info s1) = [(DOMAIN, entry_id sample_entry)] ∧
    device_name (_attr_device_info s1) =
      DEFAULT_NAME +:+ " " +:+ title sample_entry ∧
    _attr_name s1 =
      device_name (_attr_device_info s1) +:+ " Current Warning Level" ∧
    _attr_name s2 =
      device_name (_attr_device_info s2) +:+ " Advance Warning Level" ∧
    _attr_name s1 ≠ _attr_name s2.
Proof.
  split_and!; [reflexivity.. |].
  apply (async_setup_entry_sensors_share_device sample_hass sample_entry
    ignore_entities sample_store {[ "0123456789abcdef" := 1%positive ]}
    1%positive {| coordinator_api := 2%positive |}); reflexivity.
Defined.

Lemma sensor_unique_id_inj_witness :
  entity_description berlin_sensor ∈ SENSOR_TYPES ∧
  entity_description bremen_sensor ∈ SENSOR_TYPES ∧
  DwdWeatherWarningsSensor_init 1%positive unknown_entry
    (entity_description berlin_sensor) sample_store =
    (inr berlin_sensor, sample_store) ∧
  DwdWeatherWarningsSensor_init 1%positive bremen_entry
    (entity_description bremen_sensor) sample_store =
    (inr bremen_sensor, sample_store) ∧
  _attr_unique_id berlin_sensor = _attr_unique_id bremen_sensor ∧
  (entity_description berlin_sensor = entity_description bremen_sensor ∧
   format_opt (unique_id unknown_entry) = format_opt (unique_id bremen_entry) ∧
   ∀ u1 u2, unique_id unknown_entry = Some u1 →
     unique_id bremen_entry = Some u2 → u1 = u2).
Proof.
  split; [sample_elem_of |]. split; [sample_elem_of |].
  do 3 (split; [reflexivity |]).
  apply (sensor_unique_id_inj 1%positive 1%positive unknown_entry
    bremen_entry (entity_description berlin_sensor)
    (entity_description bremen_sensor) sample_store sample_store
    sample_store sample_store berlin_sensor bremen_sensor);
    first [sample_elem_of | reflexivity].
Defined.
